(** * Disruption planning of karpenter-core: consolidation and emptiness

    A shallow embedding of [pkg/controllers/disruption/consolidation.go] and
    [pkg/controllers/disruption/emptiness.go].

    - Go pointers that the code tests against [nil] are [option]s; a
      dereference of [nil] and an index out of range are panics, kept as an
      outcome of the computation.
    - [recorder.Publish] is an effect: every computation carries the events it
      has published so far.
    - The budget [map[string]int] that [Emptiness.ComputeCommand] mutates in
      place is a [gmap string Z] passed in and returned.
    - Prices are [float64]: binary64 floats with their own [+] and [<].
    - What the two files call but do not define (the scheduling simulator, the
      requirement algebra, [filterByPrice], [Compatible]) is an interface the
      planner is parameterised by. *)

From Stdlib Require Import ZArith Floats List String Lia.
From stdpp Require Import base option gmap strings list.

Local Open Scope string_scope.
Local Open Scope Z_scope.
Local Open Scope list_scope.

(** ** Constants of the API packages

    The two files name these constants of [pkg/apis]; the statements below use
    them by name only, and hold whatever strings they stand for. *)

Module v1alpha5.
Definition DoNotConsolidateNodeAnnotationKey : string := "karpenter.sh/do-not-consolidate".
End v1alpha5.

Module v1beta1.
Definition CapacityTypeLabelKey : string := "karpenter.sh/capacity-type".
Definition CapacityTypeSpot : string := "spot".
Definition CapacityTypeOnDemand : string := "on-demand".
Definition ConsolidationPolicyWhenEmpty : string := "WhenEmpty".
Definition ConsolidationPolicyWhenUnderutilized : string := "WhenUnderutilized".
(** The condition type of an empty node claim. *)
Definition Empty : string := "Empty".
End v1beta1.

Module v1.
(** [v1.NodeSelectorOperator], the operators the NodeClaim schema lists. *)
Inductive NodeSelectorOperator :=
| NodeSelectorOpIn | NodeSelectorOpNotIn | NodeSelectorOpExists
| NodeSelectorOpDoesNotExist | NodeSelectorOpGt | NodeSelectorOpLt.
End v1.

(** MinInstanceTypesForSpotToSpotConsolidation is the minimum number of
    instanceTypes in a NodeClaim needed to trigger spot-to-spot single-node
    consolidation. *)
Definition MinInstanceTypesForSpotToSpotConsolidation : nat := 15.

(** ** Time

    [time.Time] is read as an integer count of nanoseconds from Go's zero
    time, [time.Duration] as an integer count of nanoseconds. *)

Definition Time := Z.
Definition Duration := Z.

Definition Time_IsZero (t : Time) : bool := t =? 0.
Definition Time_Before (t u : Time) : bool := t <? u.
Definition Time_Add (t : Time) (d : Duration) : Time := t + d.

(** [IsZero] on a [metav1.Time] pointer: a nil time is zero. *)
Definition metav1_IsZero (t : option Time) : bool :=
  match t with
  | None => true
  | Some t => Time_IsZero t
  end.

(** ** Errors

    [errCandidateDeleting] is the package's sentinel; every other error value
    is built by [fmt.Errorf], written here with its format and its operands;
    [ErrorfW] is [fmt.Errorf] with a [%w] verb and carries the error it
    wraps. *)

Inductive operand :=
| Str (s : string)
| Int (n : Z).

Inductive error :=
| errCandidateDeleting
| Errorf (format : string) (operands : list operand)
| ErrorfW (format : string) (operands : list operand) (wrapped : error).

(** Go compares error values made by [fmt.Errorf] by pointer: two of them are
    the same only when they are the very same value, which is never the case
    for the package sentinel against a freshly made error. *)
Definition sameError (e target : error) : bool :=
  match e, target with
  | errCandidateDeleting, errCandidateDeleting => true
  | _, _ => false
  end.

(** [errors.Is]: the chain of [e], followed through each [%w]. *)
Fixpoint errors_Is (e target : error) : bool :=
  sameError e target ||
  match e with
  | ErrorfW _ _ inner => errors_Is inner target
  | _ => false
  end.

(** ** API objects *)

Module NillableDuration.
Record t := mk { Duration : option Duration }.
End NillableDuration.

Module Disruption.
(** [NodePool.Spec.Disruption]. *)
Record t := mk {
  ConsolidateAfter : option NillableDuration.t;
  ConsolidationPolicy : string;
}.
End Disruption.

Module NodePool.
Record t := mk {
  Name : string;
  Disruption : Disruption.t;
}.
End NodePool.

Module Condition.
Record t := mk {
  Type_ : string;
  Status : string;
  LastTransitionTime : Time;
}.

(** [IsTrue] on a [Condition] pointer: false on a nil condition. *)
Definition IsTrue (c : option t) : bool :=
  match c with
  | None => false
  | Some c => String.eqb (Status c) "True"
  end.
End Condition.

Module NodeClaim.
(** The [v1beta1.NodeClaim] object of a candidate. *)
Record t := mk {
  Name : string;
  DeletionTimestamp : option Time;
  Conditions : list Condition.t;
}.

(** [StatusConditions().GetCondition]: the first condition of that type,
    nil when there is none. *)
Definition GetCondition (nc : t) (ty : string) : option Condition.t :=
  List.find (fun c => String.eqb (Condition.Type_ c) ty) (Conditions nc).
End NodeClaim.

(** ** The pricing catalog *)

Module Offering.
Record t := mk {
  CapacityType : string;
  Zone : string;
  Price : float;
  Available : bool;
}.
End Offering.

Module Offerings.
(** Modelled from the spec: [Offerings.Get] of the cloud provider package,
    which the spec gives as [getOffering(instanceType, capacityType, zone)
    -> (price, found)]: the offering of that capacity type and zone, when
    the instance type has one. *)
Definition Get (ofs : list Offering.t) (ct zone : string) : option Offering.t :=
  List.find (fun o => String.eqb (Offering.CapacityType o) ct &&
                      String.eqb (Offering.Zone o) zone) ofs.
End Offerings.

Module InstanceType.
Record t := mk {
  Name : string;
  Offerings : list Offering.t;
}.
End InstanceType.

(** ** Candidates and events *)

Record Candidate := {
  Node : string;
  NodeClaim : NodeClaim.t;
  Annotations : gmap string string;
  nodePool : NodePool.t;
  instanceType : InstanceType.t;
  capacityType : string;
  zone : string;
  disruptionCost : float;
  pods : list string;
}.

(** The text of an event: a literal, or [fmt.Sprintf] with its format and
    operands. *)
Inductive Reason :=
| Text (s : string)
| Sprintf (format : string) (operands : list operand).

(** [disruptionevents.Unconsolidatable(node, nodeClaim, reason)]: the events
    that tell the user why this node and node claim are not consolidated. *)
Inductive Event :=
| Unconsolidatable (node : string) (nodeClaim : string) (reason : Reason).

Definition unconsolidatable (cn : Candidate) (reason : Reason) : Event :=
  Unconsolidatable (Node cn) (NodeClaim.Name (NodeClaim cn)) reason.

(** ** Computations: published events and panics *)

Inductive Panic :=
| NilDereference
| IndexOutOfRange.

Inductive result (A : Type) :=
| Value (a : A)
| Panicked (p : Panic).
Arguments Value {A} a.
Arguments Panicked {A} p.

(** A computation yields the events it published, in order, and its value,
    or the panic that stopped it. *)
Definition M (A : Type) : Type := list Event * result A.

Definition ret {A} (a : A) : M A := ([], Value a).

Definition bind {A B} (m : M A) (k : A -> M B) : M B :=
  match m with
  | (evs, Value a) => let '(evs', r) := k a in (evs ++ evs', r)
  | (evs, Panicked p) => (evs, Panicked p)
  end.

Notation "x <- m ;; k" := (bind m (fun x => k))
  (at level 100, m at next level, right associativity).
Notation "m ;; k" := (bind m (fun _ => k))
  (at level 100, right associativity).

Definition Publish (e : Event) : M unit := ([e], Value tt).

Definition panic {A} (p : Panic) : M A := ([], Panicked p).

(** [*p] and [p.field] for a pointer [p]. *)
Definition deref {A} (p : option A) : M A :=
  match p with
  | Some a => ret a
  | None => panic NilDereference
  end.

(** [s[i]] for a slice [s]. *)
Definition index {A} (s : list A) (i : nat) : M A :=
  match nth_error s i with
  | Some a => ret a
  | None => panic IndexOutOfRange
  end.

Definition events {A} (m : M A) : list Event := fst m.
Definition outcome {A} (m : M A) : result A := snd m.

(** ** The scheduling packages, as the planner uses them

    The requirement algebra of [pkg/scheduling], [InstanceTypes.Compatible] of
    the cloud provider package and the package's own [filterByPrice] are
    called by the planner and defined elsewhere: the planner is written over
    this interface, and every statement about it holds for each
    implementation. *)

Class Scheduling := {
  Requirement : Type;
  Requirements : Type;
  NewRequirement : string -> v1.NodeSelectorOperator -> list string -> Requirement;
  Requirements_Get : Requirements -> string -> Requirement;
  Requirement_Has : Requirement -> string -> bool;
  (** [Requirements.Add] updates the requirements in place: the updated
      requirements are returned. *)
  Requirements_Add : Requirements -> Requirement -> Requirements;
  Compatible : list InstanceType.t -> Requirements -> list InstanceType.t;
  filterByPrice : list InstanceType.t -> Requirements -> float -> list InstanceType.t;
}.

Module SchedulingNodeClaim.
(** [pscheduling.NodeClaim]: a replacement node, with the fields of its
    embedded [NodeClaimTemplate] that the planner reads and writes. *)
Record t `{Scheduling} := mk {
  Requirements : Requirements;
  InstanceTypeOptions : list InstanceType.t;
}.
End SchedulingNodeClaim.

Module Results.
(** Modelled from the spec: [pscheduling.Results], which the spec gives as
    the new node claims, the fact that all non-pending workloads were
    scheduled and, when they were not, a human-readable failure reason. *)
Record t `{Scheduling} := mk {
  NewNodeClaims : list SchedulingNodeClaim.t;
  AllNonPendingPodsScheduled : bool;
  NonPendingPodSchedulingErrors : string;
}.
End Results.

(** The plan of a disruption method. *)
Record Command `{Scheduling} := {
  candidates : list Candidate;
  replacements : list SchedulingNodeClaim.t;
}.

(** [Command{}]. *)
Definition noCommand `{Scheduling} : Command :=
  {| candidates := []; replacements := [] |}.

(** ** Emptiness *)

(** The receiver: its clock, read once per call. *)
Record Emptiness := {
  clock_Now : Time;
}.

(** [map[string]int] lookup: the zero value for a missing key. *)
Definition budgetOf (m : gmap string Z) (k : string) : Z := default 0 (m !! k).

(** ShouldDisrupt is a predicate used to filter candidates. *)
Definition Emptiness_ShouldDisrupt (e : Emptiness) (c : Candidate) : M bool :=
  let disruption := NodePool.Disruption (nodePool c) in
  if negb (String.eqb (Disruption.ConsolidationPolicy disruption)
                      v1beta1.ConsolidationPolicyWhenEmpty)
  then ret false
  else if match Disruption.ConsolidateAfter disruption with
          | Some ca => match NillableDuration.Duration ca with
                       | None => true
                       | Some _ => false
                       end
          | None => false
          end
  then
    Publish (unconsolidatable c
      (Sprintf "NodePool %q has consolidation disabled" [Str (NodePool.Name (nodePool c))])) ;;
    ret false
  else
    (* [a && b]: [b] is evaluated only when [a] holds *)
    if negb (Condition.IsTrue (NodeClaim.GetCondition (NodeClaim c) v1beta1.Empty))
    then ret false
    else
      cond <- deref (NodeClaim.GetCondition (NodeClaim c) v1beta1.Empty) ;;
      ca <- deref (Disruption.ConsolidateAfter disruption) ;;
      d <- deref (NillableDuration.Duration ca) ;;
      ret (negb (Time_Before (clock_Now e)
                   (Time_Add (Condition.LastTransitionTime cond) d))).

(** What [Emptiness.ComputeCommand] leaves behind: the command and error it
    returns, the budget mapping after the call, and the value it set the
    eligible-nodes gauge to. *)
Record Computed `{Scheduling} := {
  command : Command;
  err : option error;
  budgetAfter : gmap string Z;
  eligibleNodes : nat;
}.

(** The loop of [ComputeCommand] over the empty candidates: [empty] is the
    slice built so far, [budget] the mapping as it stands. The entries are
    Go [int]s; the only arithmetic is the decrement of an entry that is
    greater than zero, which cannot wrap around, so they are kept in [Z]. *)
Fixpoint consumeBudget (budget : gmap string Z) (empty : list Candidate)
    (emptyCandidates : list Candidate) : list Candidate * gmap string Z :=
  match emptyCandidates with
  | [] => (empty, budget)
  | candidate :: rest =>
      if (0 <? length (pods candidate))%nat then consumeBudget budget empty rest
      else
        let name := NodePool.Name (nodePool candidate) in
        if budgetOf budget name >? 0
        then consumeBudget (<[name := budgetOf budget name - 1]> budget)
                           (empty ++ [candidate]) rest
        else consumeBudget budget empty rest
  end.

(** ComputeCommand generates a disruption command given candidates. *)
Definition Emptiness_ComputeCommand `{Scheduling} (e : Emptiness)
    (disruptionBudgetMapping : gmap string Z) (candidates : list Candidate)
    : Computed :=
  let emptyCandidates :=
    List.filter (fun cn => metav1_IsZero (NodeClaim.DeletionTimestamp (NodeClaim cn)) &&
                           (length (pods cn) =? 0)%nat) candidates in
  let '(empty, budget) := consumeBudget disruptionBudgetMapping [] emptyCandidates in
  {| command := {| candidates := empty; replacements := [] |};
     err := None;
     budgetAfter := budget;
     eligibleNodes := length candidates |}.

(** ** Consolidation *)

(** The receiver. [simulateScheduling(ctx, c.kubeClient, c.cluster,
    c.provisioner, candidates...)] reads only the receiver's client, cluster
    and provisioner: the receiver carries the simulation they determine. *)
Record consolidation `{Scheduling} := {
  simulateScheduling : list Candidate -> Results.t + error;
}.

(** What the planner reads from its context: the feature gate
    [options.FromContext(ctx).FeatureGates.SpotToSpotConsolidation]. *)
Record Context := {
  SpotToSpotConsolidation : bool;
}.

(** [lo.Slice(collection, start, end)]: the elements from [start] up to, not
    including, [end], both clamped to the collection. *)
Definition lo_Slice {A} (collection : list A) (start end_ : nat) : list A :=
  if (end_ <=? start)%nat then []
  else firstn (end_ - start) (skipn start collection).

(** The loop of [getCandidatePrices]: [price] is the sum so far. *)
Fixpoint sumCandidatePrices (price : float) (candidates : list Candidate) : float + error :=
  match candidates with
  | [] => inl price
  | c :: rest =>
      match Offerings.Get (InstanceType.Offerings (instanceType c)) (capacityType c) (zone c) with
      | None =>
          inr (Errorf "unable to determine offering for %s/%s/%s"
                 [Str (InstanceType.Name (instanceType c)); Str (capacityType c); Str (zone c)])
      | Some offering => sumCandidatePrices (price + Offering.Price offering)%float rest
      end
  end.

(** getCandidatePrices returns the sum of the prices of the given candidates. *)
Definition getCandidatePrices (candidates : list Candidate) : float + error :=
  sumCandidatePrices 0%float candidates.

(** The statement
    [if len(candidates) == 1 { c.recorder.Publish(Unconsolidatable(candidates[0].Node, candidates[0].NodeClaim, reason)...) }]. *)
Definition publishForSingle (candidates : list Candidate) (reason : Reason) : M unit :=
  if (length candidates =? 1)%nat
  then (c0 <- index candidates 0 ;; Publish (unconsolidatable c0 reason))
  else ret tt.

Section Consolidation.
Context `{Scheduling}.

(** ShouldDisrupt is a predicate used to filter candidates. *)
Definition consolidation_ShouldDisrupt (c : consolidation) (cn : Candidate) : M bool :=
  let disruption := NodePool.Disruption (nodePool cn) in
  if String.eqb (default "" (Annotations cn !! v1alpha5.DoNotConsolidateNodeAnnotationKey)) "true"
  then
    Publish (unconsolidatable cn
      (Sprintf "%s annotation exists" [Str v1alpha5.DoNotConsolidateNodeAnnotationKey])) ;;
    ret false
  else if negb (String.eqb (Disruption.ConsolidationPolicy disruption)
                           v1beta1.ConsolidationPolicyWhenUnderutilized)
  then ret false
  else if match Disruption.ConsolidateAfter disruption with
          | Some ca => match NillableDuration.Duration ca with
                       | None => true
                       | Some _ => false
                       end
          | None => false
          end
  then
    Publish (unconsolidatable cn
      (Sprintf "NodePool %q has consolidation disabled" [Str (NodePool.Name (nodePool cn))])) ;;
    ret false
  else ret true.

(** [results.NewNodeClaims[0]] is a pointer: what the planner writes to the
    first new node claim is seen through [results.NewNodeClaims]. *)
Definition setFirst (claims : list SchedulingNodeClaim.t) (nc : SchedulingNodeClaim.t)
    : list SchedulingNodeClaim.t :=
  <[0%nat := nc]> claims.

Definition requireSpot (reqs : Requirements) : Requirements :=
  Requirements_Add reqs
    (NewRequirement v1beta1.CapacityTypeLabelKey v1.NodeSelectorOpIn [v1beta1.CapacityTypeSpot]).

(** Compute command to execute spot-to-spot consolidation if:
    1. The SpotToSpotConsolidation feature flag is set to true.
    2. For single-node consolidation:
       a. There are at least 15 cheapest instance type replacement options to consolidate.
       b. The current candidate is NOT part of the first 15 cheapest instance types. *)
Definition computeSpotToSpotConsolidation (c : consolidation) (ctx : Context)
    (candidates : list Candidate) (results : Results.t) (candidatePrice : float)
    : M (Command * option error) :=
  if negb (SpotToSpotConsolidation ctx) then
    publishForSingle candidates
      (Text "SpotToSpotConsolidation is disabled, can't replace a spot node with a spot node") ;;
    ret (noCommand, None)
  else
    nc <- index (Results.NewNodeClaims results) 0 ;;
    let requirements := requireSpot (SchedulingNodeClaim.Requirements nc) in
    let instanceTypeOptionsWithSpotOfferings :=
      Compatible (SchedulingNodeClaim.InstanceTypeOptions nc) requirements in
    let options := filterByPrice instanceTypeOptionsWithSpotOfferings requirements candidatePrice in
    if (length options =? 0)%nat then
      publishForSingle candidates (Text "Can't replace spot node with a cheaper spot node") ;;
      ret (noCommand, None)
    else if (1 <? length candidates)%nat then
      ret ({| candidates := candidates;
              replacements := setFirst (Results.NewNodeClaims results)
                                (SchedulingNodeClaim.mk _ requirements options) |}, None)
    else if (length options <? MinInstanceTypesForSpotToSpotConsolidation)%nat then
      c0 <- index candidates 0 ;;
      Publish (unconsolidatable c0
        (Sprintf "SpotToSpotConsolidation requires %d cheaper instance type options than the current candidate to consolidate, got %d"
           [Int (Z.of_nat MinInstanceTypesForSpotToSpotConsolidation); Int (Z.of_nat (length options))])) ;;
      ret (noCommand, None)
    else
      let options := lo_Slice options 0 MinInstanceTypesForSpotToSpotConsolidation in
      ret ({| candidates := candidates;
              replacements := setFirst (Results.NewNodeClaims results)
                                (SchedulingNodeClaim.mk _ requirements options) |}, None).

(** computeConsolidation computes a consolidation action to take. *)
Definition computeConsolidation (c : consolidation) (ctx : Context)
    (candidates : list Candidate) : M (Command * option error) :=
  match simulateScheduling c candidates with
  | inr err =>
      if errors_Is err errCandidateDeleting then ret (noCommand, None)
      else ret (noCommand, Some err)
  | inl results =>
      if negb (Results.AllNonPendingPodsScheduled results) then
        publishForSingle candidates (Text (Results.NonPendingPodSchedulingErrors results)) ;;
        ret (noCommand, None)
      else if (length (Results.NewNodeClaims results) =? 0)%nat then
        ret ({| candidates := candidates; replacements := [] |}, None)
      else if negb (length (Results.NewNodeClaims results) =? 1)%nat then
        publishForSingle candidates
          (Sprintf "Can't remove without creating %d candidates"
             [Int (Z.of_nat (length (Results.NewNodeClaims results)))]) ;;
        ret (noCommand, None)
      else
        match getCandidatePrices candidates with
        | inr err =>
            ret (noCommand,
                 Some (ErrorfW "getting offering price from candidate node, %w" [] err))
        | inl candidatePrice =>
            let allExistingAreSpot :=
              fold_left (fun allSpot cn =>
                           if negb (String.eqb (capacityType cn) v1beta1.CapacityTypeSpot)
                           then false else allSpot)
                        candidates true in
            nc <- index (Results.NewNodeClaims results) 0 ;;
            if allExistingAreSpot &&
               Requirement_Has
                 (Requirements_Get (SchedulingNodeClaim.Requirements nc) v1beta1.CapacityTypeLabelKey)
                 v1beta1.CapacityTypeSpot
            then computeSpotToSpotConsolidation c ctx candidates results candidatePrice
            else
              let options :=
                filterByPrice (SchedulingNodeClaim.InstanceTypeOptions nc)
                              (SchedulingNodeClaim.Requirements nc) candidatePrice in
              if (length options =? 0)%nat then
                publishForSingle candidates (Text "Can't replace with a cheaper node") ;;
                ret (noCommand, None)
              else
                let ctReq := Requirements_Get (SchedulingNodeClaim.Requirements nc)
                               v1beta1.CapacityTypeLabelKey in
                let requirements :=
                  if Requirement_Has ctReq v1beta1.CapacityTypeSpot &&
                     Requirement_Has ctReq v1beta1.CapacityTypeOnDemand
                  then requireSpot (SchedulingNodeClaim.Requirements nc)
                  else SchedulingNodeClaim.Requirements nc in
                ret ({| candidates := candidates;
                        replacements := setFirst (Results.NewNodeClaims results)
                                          (SchedulingNodeClaim.mk _ requirements options) |}, None)
        end
  end.

End Consolidation.

(** ** An implementation of the scheduling interface

    Requirements that constrain a label to a list of values, and the two
    filters of the instance-type option set. *)

Module Catalog.

Definition zoneLabel : string := "topology.kubernetes.io/zone".

Definition mem (v : string) (vs : list string) : bool :=
  existsb (String.eqb v) vs.

(** A requirement: its key, and the values it allows ([None]: any). *)
Definition requirement : Type := string * option (list string).

Definition newRequirement (key : string) (op : v1.NodeSelectorOperator)
    (values : list string) : requirement :=
  match op with
  | v1.NodeSelectorOpIn => (key, Some values)
  | _ => (key, None)
  end.

Definition get (reqs : gmap string (list string)) (key : string) : requirement :=
  (key, reqs !! key).

Definition has (r : requirement) (v : string) : bool :=
  match snd r with
  | None => true
  | Some vs => mem v vs
  end.

(** Adding a requirement intersects it with the one of the same key. *)
Definition add (reqs : gmap string (list string)) (r : requirement)
    : gmap string (list string) :=
  match snd r with
  | None => reqs
  | Some vs =>
      match reqs !! fst r with
      | None => <[fst r := vs]> reqs
      | Some ws => <[fst r := List.filter (fun w => mem w vs) ws]> reqs
      end
  end.

(** The offerings of an instance type that are available and that the
    requirements allow. *)
Definition launchable (reqs : gmap string (list string)) (it : InstanceType.t)
    : list Offering.t :=
  List.filter (fun o => Offering.Available o &&
                        has (get reqs v1beta1.CapacityTypeLabelKey) (Offering.CapacityType o) &&
                        has (get reqs zoneLabel) (Offering.Zone o))
              (InstanceType.Offerings it).

(** Modelled from the spec: [InstanceTypes.Compatible], the spec's
    compatible-with(requirement) filter of the option set: the options with
    an offering the requirements allow, in their order. *)
Definition compatible (its : list InstanceType.t) (reqs : gmap string (list string))
    : list InstanceType.t :=
  List.filter (fun it => negb (length (launchable reqs it) =? 0)%nat) its.

(** The price an option launches at: the dearest of its launchable
    offerings, so that an option counted as cheaper is cheaper whichever
    offering launches; [infinity] when it has none. With one offering per
    option this is that offering's price. *)
Definition launchPrice (reqs : gmap string (list string)) (it : InstanceType.t) : float :=
  match launchable reqs it with
  | [] => infinity
  | o :: os =>
      fold_left (fun p o' => if PrimFloat.ltb p (Offering.Price o') then Offering.Price o' else p)
                os (Offering.Price o)
  end.

(** Modelled from the spec: [filterByPrice], the spec's
    cheaper-than(threshold) filter of the option set: the options strictly
    cheaper than [price], in their order. *)
Definition cheaperThan (options : list InstanceType.t) (reqs : gmap string (list string))
    (price : float) : list InstanceType.t :=
  List.filter (fun it => PrimFloat.ltb (launchPrice reqs it) price) options.

#[export] Instance scheduling : Scheduling := {|
  Requirement := requirement;
  Requirements := gmap string (list string);
  NewRequirement := newRequirement;
  Requirements_Get := get;
  Requirement_Has := has;
  Requirements_Add := add;
  Compatible := compatible;
  filterByPrice := cheaperThan;
|}.

(** [options] is in ascending order of launch price. *)
Fixpoint ascendingByPrice (reqs : gmap string (list string)) (options : list InstanceType.t)
    : bool :=
  match options with
  | a :: (b :: _) as rest =>
      PrimFloat.leb (launchPrice reqs a) (launchPrice reqs b) && ascendingByPrice reqs rest
  | _ => true
  end.

(** No option of [others] is strictly cheaper than an option of [chosen]. *)
Definition cheapestOf (reqs : gmap string (list string))
    (chosen others : list InstanceType.t) : bool :=
  forallb (fun a => forallb (fun b => PrimFloat.leb (launchPrice reqs a) (launchPrice reqs b))
                            others) chosen.

End Catalog.

(** ** Sample fleet *)

Module Sample.
Import Catalog.

Definition spotOffering (price : float) : Offering.t :=
  Offering.mk v1beta1.CapacityTypeSpot "zone-a" price true.

Definition spotType (name : string) (price : float) : InstanceType.t :=
  InstanceType.mk name [spotOffering price].

Definition pool (name policy : string) (after : option NillableDuration.t) : NodePool.t :=
  NodePool.mk name (Disruption.mk after policy).

Definition claim (name : string) (conds : list Condition.t) : NodeClaim.t :=
  NodeClaim.mk name None conds.

Definition node (name : string) (anns : gmap string string) (np : NodePool.t)
    (conds : list Condition.t) (it : InstanceType.t) (ps : list string) : Candidate :=
  {| Node := name; NodeClaim := claim name conds; Annotations := anns;
     nodePool := np; instanceType := it;
     capacityType := v1beta1.CapacityTypeSpot; zone := "zone-a";
     disruptionCost := 1%float; pods := ps |}.

(** Sixteen spot options, listed from the dearest (16.0) to the cheapest
    (1.0). *)
Definition sixteen : list InstanceType.t :=
  [ spotType "t16" 16; spotType "t15" 15; spotType "t14" 14; spotType "t13" 13;
    spotType "t12" 12; spotType "t11" 11; spotType "t10" 10; spotType "t9" 9;
    spotType "t8" 8; spotType "t7" 7; spotType "t6" 6; spotType "t5" 5;
    spotType "t4" 4; spotType "t3" 3; spotType "t2" 2; spotType "t1" 1 ]%float.

Definition underutilized : NodePool.t :=
  pool "default" v1beta1.ConsolidationPolicyWhenUnderutilized None.

(** A spot node of price 20.0 with one pod. *)
Definition spotNode : Candidate :=
  node "node-a" ∅ underutilized [] (spotType "big" 20) ["pod-a"].

Definition spotOnly : gmap string (list string) :=
  {[ v1beta1.CapacityTypeLabelKey := [v1beta1.CapacityTypeSpot] ]}.

Definition replacement (options : list InstanceType.t) : SchedulingNodeClaim.t :=
  SchedulingNodeClaim.mk _ spotOnly options.

Definition scheduled (claims : list SchedulingNodeClaim.t) : Results.t :=
  Results.mk _ claims true "".

Definition simulator (r : Results.t + error) : consolidation :=
  {| simulateScheduling := fun _ => r |}.

Definition enabled : Context := {| SpotToSpotConsolidation := true |}.

(** A spot node whose instance type has no offering at all. *)
Definition strayNode : Candidate :=
  node "node-s" ∅ underutilized [] (InstanceType.mk "odd" []) ["pod-s"].

(** An error of the simulation other than the sentinel. *)
Definition apiError : error := Errorf "listing pods: connection refused" [].

(** The first fifteen of [sixteen], by name. *)
Definition firstFifteen : list string :=
  [ "t16"; "t15"; "t14"; "t13"; "t12"; "t11"; "t10"; "t9";
    "t8"; "t7"; "t6"; "t5"; "t4"; "t3"; "t2" ].
End Sample.

(** ** Vocabulary of the statements *)

(** The candidates of [cs] that belong to group [k]. *)
Definition ofGroup (k : string) (cs : list Candidate) : list Candidate :=
  List.filter (fun c => String.eqb (NodePool.Name (nodePool c)) k) cs.

(** The candidate carries the do-not-consolidate annotation. *)
Definition doNotConsolidate (cn : Candidate) : Prop :=
  Annotations cn !! v1alpha5.DoNotConsolidateNodeAnnotationKey = Some "true".

(** The candidate's pool has [consolidateAfter] present with a nil duration. *)
Definition consolidationDisabled (cn : Candidate) : Prop :=
  exists ca, Disruption.ConsolidateAfter (NodePool.Disruption (nodePool cn)) = Some ca /\
             NillableDuration.Duration ca = None.

(** The predicate returned false and published at least one event. *)
Definition excludedWithReason (m : M bool) : Prop :=
  outcome m = Value false /\ events m <> [].

Definition annotationEvent (cn : Candidate) : Event :=
  unconsolidatable cn
    (Sprintf "%s annotation exists" [Str v1alpha5.DoNotConsolidateNodeAnnotationKey]).

Definition disabledEvent (cn : Candidate) : Event :=
  unconsolidatable cn
    (Sprintf "NodePool %q has consolidation disabled" [Str (NodePool.Name (nodePool cn))]).

(** [cn] with its annotations replaced. *)
Definition withAnnotations (cn : Candidate) (anns : gmap string string) : Candidate :=
  {| Node := Node cn; NodeClaim := NodeClaim cn; Annotations := anns;
     nodePool := nodePool cn; instanceType := instanceType cn;
     capacityType := capacityType cn; zone := zone cn;
     disruptionCost := disruptionCost cn; pods := pods cn |}.

Module Eligibility.
Import Sample.

Definition marked : gmap string string :=
  {[ v1alpha5.DoNotConsolidateNodeAnnotationKey := "true" ]}.

Definition emptySince (t : Time) : list Condition.t :=
  [Condition.mk v1beta1.Empty "True" t].

(** A marked node of a WhenEmpty pool with a cooldown of 30, empty since
    time 10. *)
Definition markedEmpty : Candidate :=
  node "node-e" marked
    (pool "batch" v1beta1.ConsolidationPolicyWhenEmpty (Some (NillableDuration.mk (Some 30))))
    (emptySince 10) (spotType "big" 20) [].

(** A marked node of a WhenUnderutilized pool. *)
Definition markedBusy : Candidate :=
  node "node-m" marked underutilized [] (spotType "big" 20) ["pod-a"].

Definition disabled : option NillableDuration.t := Some (NillableDuration.mk None).

(** Nodes of pools with consolidation disabled: a WhenEmpty pool, a
    WhenUnderutilized pool, and a pool without a policy. *)
Definition disabledWhenEmpty : Candidate :=
  node "node-d" ∅ (pool "batch" v1beta1.ConsolidationPolicyWhenEmpty disabled)
    (emptySince 10) (spotType "big" 20) [].

Definition disabledNoPolicy : Candidate :=
  node "node-n" ∅ (pool "plain" "" disabled) (emptySince 10) (spotType "big" 20) [].

(** An empty node of a WhenEmpty pool that has no [consolidateAfter]. *)
Definition emptyNoCooldown : Candidate :=
  node "node-x" ∅ (pool "batch" v1beta1.ConsolidationPolicyWhenEmpty None)
    (emptySince 10) (spotType "big" 20) [].

Definition anySimulator : consolidation := simulator (inl (scheduled [])).
End Eligibility.

(** The options of the spot-to-spot planner after both filters: the options
    of the new node claim that are compatible with the requirements once
    spot is required, and cheaper than [price]. *)
Definition cheaperSpotOptions `{Scheduling} (nc : SchedulingNodeClaim.t) (price : float)
    : list InstanceType.t :=
  filterByPrice
    (Compatible (SchedulingNodeClaim.InstanceTypeOptions nc)
                (requireSpot (SchedulingNodeClaim.Requirements nc)))
    (requireSpot (SchedulingNodeClaim.Requirements nc)) price.

(** The offering a candidate runs on, when its instance type has it. *)
Definition offeringOf (cn : Candidate) : option Offering.t :=
  Offerings.Get (InstanceType.Offerings (instanceType cn)) (capacityType cn) (zone cn).


(** The error of [getCandidatePrices] for a candidate without its offering. *)
Definition offeringError (cn : Candidate) : error :=
  Errorf "unable to determine offering for %s/%s/%s"
    [Str (InstanceType.Name (instanceType cn)); Str (capacityType cn); Str (zone cn)].

(** What [publishForSingle] publishes. *)
Definition forSingle (candidates : list Candidate) (reason : Reason) : list Event :=
  match candidates with
  | [c0] => [unconsolidatable c0 reason]
  | _ => []
  end.

(** The filter of [ComputeCommand]: not being deleted, and without pods. *)
Definition isEmptyCandidate (cn : Candidate) : bool :=
  metav1_IsZero (NodeClaim.DeletionTimestamp (NodeClaim cn)) && (length (pods cn) =? 0)%nat.

(** The candidates the loop of [ComputeCommand] does not skip for their pods. *)
Definition withoutPods (cs : list Candidate) : list Candidate :=
  List.filter (fun cn => negb (0 <? length (pods cn))%nat) cs.

(** Every candidate runs on spot capacity. *)
Definition allSpot (cs : list Candidate) : bool :=
  forallb (fun cn => String.eqb (capacityType cn) v1beta1.CapacityTypeSpot) cs.

(** The capacity-type requirement of a new node claim allows [ct]. *)
Definition permits `{Scheduling} (nc : SchedulingNodeClaim.t) (ct : string) : bool :=
  Requirement_Has
    (Requirements_Get (SchedulingNodeClaim.Requirements nc) v1beta1.CapacityTypeLabelKey) ct.

Module Fleet.
Import Catalog Sample.

Definition emptyNode (name : string) (np : NodePool.t) : Candidate :=
  node name ∅ np [] (spotType "big" 20) [].

Definition busyNode (name : string) (np : NodePool.t) : Candidate :=
  node name ∅ np [] (spotType "big" 20) ["pod-a"].

Definition batch : NodePool.t :=
  pool "batch" v1beta1.ConsolidationPolicyWhenEmpty (Some (NillableDuration.mk (Some 30))).

(** Three empty nodes of pool default around a busy one and an empty node
    of pool batch. *)
Definition mixed : list Candidate :=
  [ emptyNode "a" underutilized; busyNode "b" underutilized; emptyNode "c" batch;
    emptyNode "d" underutilized; emptyNode "e" underutilized ].

Definition budgets : gmap string Z := {[ "default" := 2; "batch" := 1 ]}.

Definition now (t : Time) : Emptiness := {| clock_Now := t |}.

(** An on-demand node of price 20.0. *)
Definition onDemandNode : Candidate :=
  {| Node := "node-o"; NodeClaim := claim "node-o" []; Annotations := ∅;
     nodePool := underutilized;
     instanceType :=
       InstanceType.mk "big" [Offering.mk v1beta1.CapacityTypeOnDemand "zone-a" 20 true];
     capacityType := v1beta1.CapacityTypeOnDemand; zone := "zone-a";
     disruptionCost := 1%float; pods := ["pod-o"] |}.

Definition spotNodeB : Candidate :=
  node "node-b" ∅ underutilized [] (spotType "big" 20) ["pod-b"].

Definition disabledGate : Context := {| SpotToSpotConsolidation := false |}.

Definition unscheduled (claims : list SchedulingNodeClaim.t) (why : string) : Results.t :=
  Results.mk _ claims false why.

(** A new node claim that allows spot and on-demand. *)
Definition anyCapacity : gmap string (list string) :=
  {[ v1beta1.CapacityTypeLabelKey := [v1beta1.CapacityTypeSpot; v1beta1.CapacityTypeOnDemand] ]}.

Definition flexible (options : list InstanceType.t) : SchedulingNodeClaim.t :=
  SchedulingNodeClaim.mk _ anyCapacity options.
End Fleet.

(** The outcomes of [computeConsolidation] for the candidates [cands]:
    - it gives up: the empty command, no error, and nothing published or,
      for a single candidate, one event about that candidate;
    - it fails: the empty command and an error, which is the simulation's
      own error (not the deleting sentinel) or wraps the error of a candidate
      without its offering; nothing is published;
    - it deletes: the candidates it was given and no replacement;
    - it replaces: the candidates it was given and one replacement, whose
      options are not empty and all passed [filterByPrice] against the sum
      of the candidates' prices;
    - it panics on an index, which takes an empty list of candidates. *)
Inductive planned `{Scheduling} (c : consolidation) (cands : list Candidate)
    : M (Command * option error) -> Prop :=
| planned_nothing (evs : list Event) :
    evs = [] \/ (exists c0 reason, cands = [c0] /\ evs = [unconsolidatable c0 reason]) ->
    planned c cands (evs, Value (noCommand, None))
| planned_error (e : error) :
    (simulateScheduling c cands = inr e /\ errors_Is e errCandidateDeleting = false) \/
    (exists cn, In cn cands /\ offeringOf cn = None /\
                e = ErrorfW "getting offering price from candidate node, %w" []
                      (offeringError cn)) ->
    planned c cands ([], Value (noCommand, Some e))
| planned_delete :
    planned c cands ([], Value ({| candidates := cands; replacements := [] |}, None))
| planned_replace (nc : SchedulingNodeClaim.t) (price : float)
      (options : list InstanceType.t) (reqs : Requirements) :
    getCandidatePrices cands = inl price ->
    SchedulingNodeClaim.InstanceTypeOptions nc <> [] ->
    incl (SchedulingNodeClaim.InstanceTypeOptions nc) (filterByPrice options reqs price) ->
    planned c cands ([], Value ({| candidates := cands; replacements := [nc] |}, None))
| planned_panic :
    cands = [] ->
    planned c cands ([], Panicked IndexOutOfRange).

(** * Properties *)

(** ** The budget loop *)

Lemma budgetOf_insert (m : gmap string Z) (k n : string) (v : Z) :
  budgetOf (<[n := v]> m) k = if decide (n = k) then v else budgetOf m k.
Proof.
  unfold budgetOf. rewrite lookup_insert. by destruct (decide (n = k)).
Qed.

Lemma ofGroup_app k cs ds : ofGroup k (cs ++ ds) = ofGroup k cs ++ ofGroup k ds.
Proof. apply List.filter_app. Qed.

(** One step of the loop leaves every entry where it was or one lower, and
    touches only an entry that is positive. *)
Lemma consumeBudget_entries (cs : list Candidate) :
  forall (m : gmap string Z) (empty : list Candidate) (k : string),
    let m' := snd (consumeBudget m empty cs) in
    budgetOf m' k <= budgetOf m k /\
    (0 <= budgetOf m k -> 0 <= budgetOf m' k) /\
    (budgetOf m k <= 0 -> m' !! k = m !! k) /\
    (is_Some (m' !! k) <-> is_Some (m !! k)).
Proof.
  induction cs as [|c cs IH]; intros m empty k; cbn zeta.
  - simpl. repeat split; auto; lia.
  - simpl. destruct (0 <? length (pods c))%nat; [apply IH|].
    destruct (Z.gtb_spec (budgetOf m (NodePool.Name (nodePool c))) 0) as [Hpos|Hle];
      [|apply IH].
    set (n := NodePool.Name (nodePool c)) in *.
    specialize (IH (<[n := budgetOf m n - 1]> m) (empty ++ [c]) k).
    cbn zeta in IH. destruct IH as (Hle & Hnn & Hkeep & Hdom).
    rewrite budgetOf_insert in Hle, Hnn, Hkeep.
    destruct (decide (n = k)) as [->|Hne].
    + repeat split; try lia.
      * rewrite Hdom, lookup_insert_eq. unfold budgetOf in Hpos.
        destruct (m !! k); [eauto | simpl in Hpos; lia].
      * rewrite Hdom, lookup_insert_eq. eauto.
    + rewrite lookup_insert_ne in Hkeep, Hdom by done.
      repeat split; auto; tauto.
Qed.

(** Every unit taken from group [k] pays for one candidate of [k] appended to
    the output. *)
Lemma consumeBudget_accounting (cs : list Candidate) :
  forall (m : gmap string Z) (empty : list Candidate) (k : string),
    Z.of_nat (length (ofGroup k (fst (consumeBudget m empty cs)))) =
    Z.of_nat (length (ofGroup k empty)) + (budgetOf m k - budgetOf (snd (consumeBudget m empty cs)) k).
Proof.
  induction cs as [|c cs IH]; intros m empty k.
  - simpl. lia.
  - simpl. destruct (0 <? length (pods c))%nat; [apply IH|].
    destruct (Z.gtb_spec (budgetOf m (NodePool.Name (nodePool c))) 0) as [Hpos|Hle];
      [|apply IH].
    rewrite IH, ofGroup_app, length_app, budgetOf_insert. simpl.
    destruct (decide (NodePool.Name (nodePool c) = k)) as [->|Hne].
    + rewrite String.eqb_refl. simpl. lia.
    + apply String.eqb_neq in Hne. rewrite Hne. simpl. lia.
Qed.

Lemma Emptiness_ComputeCommand_unfold `{Scheduling} e m cs :
  Emptiness_ComputeCommand e m cs =
  let run := consumeBudget m []
               (List.filter (fun cn => metav1_IsZero (NodeClaim.DeletionTimestamp (NodeClaim cn)) &&
                                       (length (pods cn) =? 0)%nat) cs) in
  {| command := {| candidates := fst run; replacements := [] |};
     err := None;
     budgetAfter := snd run;
     eligibleNodes := length cs |}.
Proof.
  unfold Emptiness_ComputeCommand. cbn zeta. by destruct (consumeBudget _ _ _).
Qed.

(** C7. Three candidates of one group, each without pods and not being
    deleted, against a budget of 2 for that group: the command holds the
    first two candidates, in their input order, and no replacement; the
    group's entry is left at 0 and the other entries are untouched. *)
Theorem emptiness_three_candidates_budget_two `{Scheduling}
    (e : Emptiness) (m : gmap string Z) (g : string) (c1 c2 c3 : Candidate) :
  NodePool.Name (nodePool c1) = g ->
  NodePool.Name (nodePool c2) = g ->
  NodePool.Name (nodePool c3) = g ->
  pods c1 = [] -> pods c2 = [] -> pods c3 = [] ->
  metav1_IsZero (NodeClaim.DeletionTimestamp (NodeClaim c1)) = true ->
  metav1_IsZero (NodeClaim.DeletionTimestamp (NodeClaim c2)) = true ->
  metav1_IsZero (NodeClaim.DeletionTimestamp (NodeClaim c3)) = true ->
  m !! g = Some 2 ->
  Emptiness_ComputeCommand e m [c1; c2; c3] =
  {| command := {| candidates := [c1; c2]; replacements := [] |};
     err := None;
     budgetAfter := <[g := 0]> m;
     eligibleNodes := 3 |}.
Proof.
  intros G1 G2 G3 P1 P2 P3 D1 D2 D3 Hm.
  rewrite Emptiness_ComputeCommand_unfold. cbn zeta.
  simpl List.filter. rewrite D1, D2, D3, P1, P2, P3. simpl.
  assert (Hb : budgetOf m g = 2) by (unfold budgetOf; by rewrite Hm).
  rewrite P1, P2, P3, G1, G2, G3. simpl.
  rewrite ?budgetOf_insert, ?decide_True, Hb by done. simpl.
  rewrite !insert_insert_eq. reflexivity.
Qed.

Lemma emptiness_three_candidates_budget_two_witness :
  Emptiness_ComputeCommand (H := Catalog.scheduling) {| clock_Now := 0 |}
    {[ "default" := 2; "other" := 5 ]}
    [ Sample.node "a" ∅ Sample.underutilized [] (Sample.spotType "big" 20) [];
      Sample.node "b" ∅ Sample.underutilized [] (Sample.spotType "big" 20) [];
      Sample.node "c" ∅ Sample.underutilized [] (Sample.spotType "big" 20) [] ] =
  {| command :=
       {| candidates :=
            [ Sample.node "a" ∅ Sample.underutilized [] (Sample.spotType "big" 20) [];
              Sample.node "b" ∅ Sample.underutilized [] (Sample.spotType "big" 20) [] ];
          replacements := [] |};
     err := None;
     budgetAfter := <["default" := 0]> {[ "default" := 2; "other" := 5 ]};
     eligibleNodes := 3 |}.
Proof.
  apply (emptiness_three_candidates_budget_two (H := Catalog.scheduling));
    reflexivity.
Defined.

(** C8. Whatever the budget mapping and the candidates, no entry of the
    mapping is higher after [ComputeCommand] than before; an entry that was
    not negative is not negative afterwards; an entry that was zero or
    negative is left as it was; no entry is created or removed; and the
    units taken from a group are as many as the candidates of that group in
    the command. *)
Theorem emptiness_budget_only_decrements `{Scheduling}
    (e : Emptiness) (m : gmap string Z) (cs : list Candidate) (k : string) :
  budgetOf (budgetAfter (Emptiness_ComputeCommand e m cs)) k <= budgetOf m k /\
  (0 <= budgetOf m k -> 0 <= budgetOf (budgetAfter (Emptiness_ComputeCommand e m cs)) k) /\
  (budgetOf m k <= 0 -> budgetAfter (Emptiness_ComputeCommand e m cs) !! k = m !! k) /\
  (is_Some (budgetAfter (Emptiness_ComputeCommand e m cs) !! k) <-> is_Some (m !! k)) /\
  budgetOf m k - budgetOf (budgetAfter (Emptiness_ComputeCommand e m cs)) k =
    Z.of_nat (length (ofGroup k (candidates (command (Emptiness_ComputeCommand e m cs))))).
Proof.
  rewrite Emptiness_ComputeCommand_unfold. cbn zeta. simpl.
  match goal with |- context [consumeBudget m [] ?l] => set (es := l) end.
  destruct (consumeBudget_entries es m [] k) as (H1 & H2 & H3 & H4).
  pose proof (consumeBudget_accounting es m [] k) as H5. simpl in H5.
  repeat split; try tauto; lia.
Qed.

Lemma emptiness_budget_only_decrements_witness :
  budgetOf (budgetAfter (Emptiness_ComputeCommand (H := Catalog.scheduling) {| clock_Now := 0 |}
              {[ "default" := -1 ]}
              [ Sample.node "a" ∅ Sample.underutilized [] (Sample.spotType "big" 20) [] ]))
           "default" <= -1 /\
  budgetAfter (Emptiness_ComputeCommand (H := Catalog.scheduling) {| clock_Now := 0 |}
              {[ "default" := -1 ]}
              [ Sample.node "a" ∅ Sample.underutilized [] (Sample.spotType "big" 20) [] ])
    !! "default" = Some (-1).
Proof.
  pose proof (emptiness_budget_only_decrements (H := Catalog.scheduling) {| clock_Now := 0 |}
                {[ "default" := -1 ]}
                [ Sample.node "a" ∅ Sample.underutilized [] (Sample.spotType "big" 20) [] ]
                "default") as (Hle & _ & Hkeep & _).
  split; [exact Hle | apply Hkeep; vm_compute; discriminate].
Defined.

(** ** The eligibility predicates *)


(** C5, as the code has it. A candidate that carries the do-not-consolidate
    annotation is excluded by the consolidation predicate, whatever its
    pool's policy and [consolidateAfter], with the event that names the
    annotation; the emptiness predicate does not read the annotations: its
    result is the same whatever they are. *)
Theorem consolidation_honours_do_not_consolidate `{Scheduling}
    (c : consolidation) (e : Emptiness) (cn : Candidate) :
  doNotConsolidate cn ->
  consolidation_ShouldDisrupt c cn = ([annotationEvent cn], Value false) /\
  forall anns, Emptiness_ShouldDisrupt e (withAnnotations cn anns) = Emptiness_ShouldDisrupt e cn.
Proof.
  intros Hmark. split.
  - unfold consolidation_ShouldDisrupt. red in Hmark. rewrite Hmark. reflexivity.
  - intros anns. reflexivity.
Qed.

Lemma consolidation_honours_do_not_consolidate_witness :
  consolidation_ShouldDisrupt Eligibility.anySimulator Eligibility.markedBusy =
    ([annotationEvent Eligibility.markedBusy], Value false) /\
  forall anns,
    Emptiness_ShouldDisrupt {| clock_Now := 100 |} (withAnnotations Eligibility.markedBusy anns) =
    Emptiness_ShouldDisrupt {| clock_Now := 100 |} Eligibility.markedBusy.
Proof.
  apply (consolidation_honours_do_not_consolidate (H := Catalog.scheduling)).
  reflexivity.
Defined.

(** C5, as stated, fails for emptiness: a candidate that carries the
    annotation, empty for longer than its pool's cooldown, is accepted by the
    emptiness predicate, and no event is published. *)
Lemma emptiness_ignores_do_not_consolidate :
  doNotConsolidate Eligibility.markedEmpty /\
  Emptiness_ShouldDisrupt {| clock_Now := 100 |} Eligibility.markedEmpty = ([], Value true) /\
  ~ excludedWithReason (Emptiness_ShouldDisrupt {| clock_Now := 100 |} Eligibility.markedEmpty).
Proof.
  split; [reflexivity|]. split; [reflexivity|].
  intros [Hout _]. vm_compute in Hout. discriminate.
Qed.

(** C6, as the code has it. For a candidate whose pool has [consolidateAfter]
    present with a nil duration, both predicates return false. The emptiness
    predicate publishes the reason exactly when the pool's policy is
    WhenEmpty; the consolidation predicate publishes it exactly when the
    candidate is not marked do-not-consolidate and the pool's policy is
    WhenUnderutilized (a marked candidate gets the annotation's event
    instead); otherwise the exclusion is silent. *)
Theorem consolidate_after_disabled_excludes `{Scheduling}
    (c : consolidation) (e : Emptiness) (cn : Candidate) :
  consolidationDisabled cn ->
  outcome (consolidation_ShouldDisrupt c cn) = Value false /\
  outcome (Emptiness_ShouldDisrupt e cn) = Value false /\
  events (Emptiness_ShouldDisrupt e cn) =
    (if String.eqb (Disruption.ConsolidationPolicy (NodePool.Disruption (nodePool cn)))
                   v1beta1.ConsolidationPolicyWhenEmpty
     then [disabledEvent cn] else []) /\
  events (consolidation_ShouldDisrupt c cn) =
    (if String.eqb (default "" (Annotations cn !! v1alpha5.DoNotConsolidateNodeAnnotationKey)) "true"
     then [annotationEvent cn]
     else if String.eqb (Disruption.ConsolidationPolicy (NodePool.Disruption (nodePool cn)))
                        v1beta1.ConsolidationPolicyWhenUnderutilized
          then [disabledEvent cn] else []).
Proof.
  intros (ca & Hca & Hd).
  unfold consolidation_ShouldDisrupt, Emptiness_ShouldDisrupt. cbn zeta.
  rewrite Hca, Hd.
  destruct (String.eqb (default "" (Annotations cn !! v1alpha5.DoNotConsolidateNodeAnnotationKey))
                       "true");
    destruct (String.eqb (Disruption.ConsolidationPolicy (NodePool.Disruption (nodePool cn)))
                         v1beta1.ConsolidationPolicyWhenUnderutilized);
    destruct (String.eqb (Disruption.ConsolidationPolicy (NodePool.Disruption (nodePool cn)))
                         v1beta1.ConsolidationPolicyWhenEmpty);
    repeat split; reflexivity.
Qed.

Lemma consolidate_after_disabled_excludes_witness :
  outcome (consolidation_ShouldDisrupt Eligibility.anySimulator Eligibility.disabledWhenEmpty) =
    Value false /\
  outcome (Emptiness_ShouldDisrupt {| clock_Now := 100 |} Eligibility.disabledWhenEmpty) =
    Value false /\
  events (Emptiness_ShouldDisrupt {| clock_Now := 100 |} Eligibility.disabledWhenEmpty) =
    [disabledEvent Eligibility.disabledWhenEmpty] /\
  events (consolidation_ShouldDisrupt Eligibility.anySimulator Eligibility.disabledWhenEmpty) = [].
Proof.
  apply (consolidate_after_disabled_excludes (H := Catalog.scheduling)
           Eligibility.anySimulator {| clock_Now := 100 |} Eligibility.disabledWhenEmpty).
  exists (NillableDuration.mk None). split; reflexivity.
Defined.

(** C6, as stated, fails: with consolidation disabled on a WhenEmpty pool
    the consolidation predicate publishes nothing, and on a pool without a
    policy neither predicate publishes anything. *)
Lemma disabled_pool_excluded_silently :
  (consolidationDisabled Eligibility.disabledWhenEmpty /\
   ~ excludedWithReason
       (consolidation_ShouldDisrupt Eligibility.anySimulator Eligibility.disabledWhenEmpty)) /\
  (consolidationDisabled Eligibility.disabledNoPolicy /\
   ~ excludedWithReason
       (consolidation_ShouldDisrupt Eligibility.anySimulator Eligibility.disabledNoPolicy) /\
   ~ excludedWithReason
       (Emptiness_ShouldDisrupt {| clock_Now := 100 |} Eligibility.disabledNoPolicy)).
Proof.
  repeat split;
    try (exists (NillableDuration.mk None); split; reflexivity);
    intros [_ Hev]; apply Hev; reflexivity.
Qed.

(** C10. [Emptiness.ShouldDisrupt] panics exactly when the pool's policy is
    WhenEmpty, its [consolidateAfter] is nil and the candidate's Empty
    condition is true: the right operand of [&&], the cooldown comparison,
    is then evaluated and reads the duration through the nil pointer. The
    panic is a nil dereference and nothing was published before it. With
    [consolidateAfter] not nil the predicate returns. *)
Theorem emptiness_should_disrupt_nil_consolidate_after (e : Emptiness) (c : Candidate) :
  ((exists p, outcome (Emptiness_ShouldDisrupt e c) = Panicked p) <->
   (Disruption.ConsolidationPolicy (NodePool.Disruption (nodePool c)) =
      v1beta1.ConsolidationPolicyWhenEmpty /\
    Disruption.ConsolidateAfter (NodePool.Disruption (nodePool c)) = None /\
    Condition.IsTrue (NodeClaim.GetCondition (NodeClaim c) v1beta1.Empty) = true)) /\
  (Disruption.ConsolidationPolicy (NodePool.Disruption (nodePool c)) =
     v1beta1.ConsolidationPolicyWhenEmpty ->
   Disruption.ConsolidateAfter (NodePool.Disruption (nodePool c)) = None ->
   Condition.IsTrue (NodeClaim.GetCondition (NodeClaim c) v1beta1.Empty) = true ->
   Emptiness_ShouldDisrupt e c = ([], Panicked NilDereference)) /\
  (Disruption.ConsolidateAfter (NodePool.Disruption (nodePool c)) <> None ->
   exists b, outcome (Emptiness_ShouldDisrupt e c) = Value b).
Proof.
  assert (Hpanic :
    Disruption.ConsolidationPolicy (NodePool.Disruption (nodePool c)) =
      v1beta1.ConsolidationPolicyWhenEmpty ->
    Disruption.ConsolidateAfter (NodePool.Disruption (nodePool c)) = None ->
    Condition.IsTrue (NodeClaim.GetCondition (NodeClaim c) v1beta1.Empty) = true ->
    Emptiness_ShouldDisrupt e c = ([], Panicked NilDereference)).
  { intros Hp Hca Ht. unfold Emptiness_ShouldDisrupt. cbn zeta.
    rewrite Hp, Hca, Ht. simpl.
    destruct (NodeClaim.GetCondition (NodeClaim c) v1beta1.Empty); [reflexivity | discriminate]. }
  assert (Hcases :
    (exists b, outcome (Emptiness_ShouldDisrupt e c) = Value b) \/
    (Disruption.ConsolidationPolicy (NodePool.Disruption (nodePool c)) =
       v1beta1.ConsolidationPolicyWhenEmpty /\
     Disruption.ConsolidateAfter (NodePool.Disruption (nodePool c)) = None /\
     Condition.IsTrue (NodeClaim.GetCondition (NodeClaim c) v1beta1.Empty) = true)).
  { unfold Emptiness_ShouldDisrupt. cbn zeta.
    destruct (String.eqb_spec
                (Disruption.ConsolidationPolicy (NodePool.Disruption (nodePool c)))
                v1beta1.ConsolidationPolicyWhenEmpty) as [Hp|Hp]; simpl; [|left; eauto].
    destruct (Disruption.ConsolidateAfter (NodePool.Disruption (nodePool c))) as [ca|].
    - destruct (NillableDuration.Duration ca) as [d|] eqn:Hd; simpl; [|left; eauto].
      destruct (NodeClaim.GetCondition (NodeClaim c) v1beta1.Empty) as [cond|]; simpl;
        [|left; eauto].
      destruct (String.eqb (Condition.Status cond) "True"); simpl; rewrite ?Hd; simpl;
        left; eauto.
    - destruct (Condition.IsTrue (NodeClaim.GetCondition (NodeClaim c) v1beta1.Empty)) eqn:Ht;
        simpl; [right; auto | left; eauto]. }
  split; [|split].
  - split.
    + intros [p Hp]. destruct Hcases as [[b Hb]|Hc]; [congruence | exact Hc].
    + intros (Hp & Hca & Ht). exists NilDereference. by rewrite Hpanic.
  - exact Hpanic.
  - intros Hne. destruct Hcases as [Hb|(_ & Hca & _)]; [exact Hb | contradiction].
Qed.

Lemma emptiness_should_disrupt_nil_consolidate_after_witness :
  Emptiness_ShouldDisrupt {| clock_Now := 100 |} Eligibility.emptyNoCooldown =
    ([], Panicked NilDereference).
Proof.
  apply (proj1 (proj2 (emptiness_should_disrupt_nil_consolidate_after
                         {| clock_Now := 100 |} Eligibility.emptyNoCooldown)));
    reflexivity.
Defined.

(** ** Candidate prices *)



(** ** The planner *)

Lemma publishForSingle_events (cs : list Candidate) (reason : Reason) :
  publishForSingle cs reason = (forSingle cs reason, Value tt).
Proof. by destruct cs as [|c0 [|c1 cs]]. Qed.

Lemma publishForSingle_then {A} (cs : list Candidate) (reason : Reason) (a : A) :
  (publishForSingle cs reason ;; ret a) = (forSingle cs reason, Value a).
Proof. by destruct cs as [|c0 [|c1 cs]]. Qed.

Section Planner.
Context `{Scheduling}.
Variables (c : consolidation) (ctx : Context) (cands : list Candidate).

(** C9. When the simulation fails with the error that says a candidate is
    being deleted (the sentinel itself, or an error that wraps it), the
    planner returns the empty command and no error; it returns any other
    error of the simulation as it is, with the empty command. Neither
    publishes an event. *)
Theorem simulation_error_handling (e : error) :
  simulateScheduling c cands = inr e ->
  (e = errCandidateDeleting ->
     computeConsolidation c ctx cands = ([], Value (noCommand, None))) /\
  (errors_Is e errCandidateDeleting = true ->
     computeConsolidation c ctx cands = ([], Value (noCommand, None))) /\
  (errors_Is e errCandidateDeleting = false ->
     computeConsolidation c ctx cands = ([], Value (noCommand, Some e))).
Proof.
  intros Hsim. unfold computeConsolidation. rewrite Hsim.
  repeat split.
  - intros ->. reflexivity.
  - intros ->. reflexivity.
  - intros ->. reflexivity.
Qed.

(** C2. When the simulation succeeds, schedules every non-pending pod and
    needs no new node claim, the planner returns, without error and
    without an event, the command that holds the candidates it was given
    and no replacement. *)
Theorem zero_replacements_delete_only (results : Results.t) :
  simulateScheduling c cands = inl results ->
  Results.AllNonPendingPodsScheduled results = true ->
  Results.NewNodeClaims results = [] ->
  computeConsolidation c ctx cands =
    ([], Value ({| candidates := cands; replacements := [] |}, None)).
Proof.
  intros Hsim Hall Hnone. unfold computeConsolidation.
  rewrite Hsim, Hall, Hnone. reflexivity.
Qed.

(** The spot-to-spot planner, called on results with one new node claim,
    returns at most one replacement, and returns whenever there is a
    candidate. *)
Lemma computeSpotToSpotConsolidation_bound (results : Results.t)
    (nc : SchedulingNodeClaim.t) (price : float) :
  Results.NewNodeClaims results = [nc] ->
  match outcome (computeSpotToSpotConsolidation c ctx cands results price) with
  | Value (cmd, _) => (length (replacements cmd) <= 1)%nat
  | Panicked _ => cands = []
  end.
Proof.
  intros Hone. unfold computeSpotToSpotConsolidation.
  rewrite !publishForSingle_then, Hone. cbn [index nth_error].
  destruct (SpotToSpotConsolidation ctx); simpl; [|lia].
  destruct (length (filterByPrice _ _ _) =? 0)%nat; simpl; [lia|].
  destruct cands as [|c0 [|c1 rest]]; simpl.
  - destruct (_ <? _)%nat; simpl; [reflexivity | lia].
  - destruct (_ <? _)%nat; simpl; lia.
  - lia.
Qed.

(** C3. When the simulation succeeds, schedules every non-pending pod and
    needs two or more new node claims, the planner returns the empty
    command and no error, after the event for a single candidate. And
    whatever the simulation says, a command the planner returns has at
    most one replacement; the planner returns whenever it is given at
    least one candidate. *)
Theorem multiple_replacements_rejected :
  (forall results : Results.t,
      simulateScheduling c cands = inl results ->
      Results.AllNonPendingPodsScheduled results = true ->
      (2 <= length (Results.NewNodeClaims results))%nat ->
      computeConsolidation c ctx cands =
        (forSingle cands
           (Sprintf "Can't remove without creating %d candidates"
              [Int (Z.of_nat (length (Results.NewNodeClaims results)))]),
         Value (noCommand, None))) /\
  match outcome (computeConsolidation c ctx cands) with
  | Value (cmd, _) => (length (replacements cmd) <= 1)%nat
  | Panicked _ => cands = []
  end.
Proof.
  split.
  - intros results Hsim Hall Hmany. unfold computeConsolidation.
    rewrite Hsim, Hall, !publishForSingle_then.
    destruct (Results.NewNodeClaims results) as [|n1 [|n2 ns]]; simpl in *; try lia.
    reflexivity.
  - unfold computeConsolidation.
    destruct (simulateScheduling c cands) as [results|e].
    2: { destruct (errors_Is e errCandidateDeleting); simpl; lia. }
    rewrite !publishForSingle_then.
    destruct (Results.AllNonPendingPodsScheduled results); simpl; [|lia].
    destruct (Results.NewNodeClaims results) as [|nc [|n2 ns]] eqn:Hclaims; simpl; try lia.
    destruct (getCandidatePrices cands) as [price|e]; simpl; [|lia].
    match goal with |- context [if ?b then _ else _] => destruct b end.
    + pose proof (computeSpotToSpotConsolidation_bound results nc price Hclaims) as Hb.
      destruct (computeSpotToSpotConsolidation c ctx cands results price) as [evs [[cmd e]|p]];
        exact Hb.
    + destruct (length (filterByPrice _ _ _) =? 0)%nat; simpl; lia.
Qed.


(** X17. For one candidate and the feature enabled: with fewer than 15
    cheaper options the spot-to-spot planner returns the empty command. *)
Lemma spot_to_spot_below_minimum (cn : Candidate) (results : Results.t)
    (nc : SchedulingNodeClaim.t) (rest : list SchedulingNodeClaim.t) (price : float) :
  SpotToSpotConsolidation ctx = true ->
  Results.NewNodeClaims results = nc :: rest ->
  (length (cheaperSpotOptions nc price) < MinInstanceTypesForSpotToSpotConsolidation)%nat ->
  outcome (computeSpotToSpotConsolidation c ctx [cn] results price) = Value (noCommand, None).
Proof.
  intros Hon Hclaims Hfew. unfold computeSpotToSpotConsolidation.
  rewrite Hon, Hclaims. cbn [negb index nth_error]. simpl bind.
  fold (cheaperSpotOptions nc price).
  destruct (Nat.eqb_spec (length (cheaperSpotOptions nc price)) 0); [reflexivity|].
  simpl. apply Nat.ltb_lt in Hfew. rewrite Hfew. reflexivity.
Qed.

(** X18. With 15 or more, it returns the candidate and the new node claim,
    required to be spot, with the first 15 of the cheaper options in the
    order the filters left them. *)
Lemma spot_to_spot_truncates (cn : Candidate) (results : Results.t)
    (nc : SchedulingNodeClaim.t) (rest : list SchedulingNodeClaim.t) (price : float) :
  SpotToSpotConsolidation ctx = true ->
  Results.NewNodeClaims results = nc :: rest ->
  (MinInstanceTypesForSpotToSpotConsolidation <= length (cheaperSpotOptions nc price))%nat ->
  computeSpotToSpotConsolidation c ctx [cn] results price =
    ([], Value ({| candidates := [cn];
                   replacements :=
                     SchedulingNodeClaim.mk _
                       (requireSpot (SchedulingNodeClaim.Requirements nc))
                       (firstn MinInstanceTypesForSpotToSpotConsolidation
                               (cheaperSpotOptions nc price)) :: rest |}, None)).
Proof.
  intros Hon Hclaims Hmany. unfold computeSpotToSpotConsolidation.
  rewrite Hon, Hclaims. cbn [negb index nth_error]. simpl bind.
  fold (cheaperSpotOptions nc price).
  destruct (Nat.eqb_spec (length (cheaperSpotOptions nc price)) 0) as [Hz|_].
  { rewrite Hz in Hmany. unfold MinInstanceTypesForSpotToSpotConsolidation in Hmany. lia. }
  simpl (1 <? length [cn])%nat. cbv iota.
  destruct (Nat.ltb_spec (length (cheaperSpotOptions nc price))
                         MinInstanceTypesForSpotToSpotConsolidation); [lia|].
  reflexivity.
Qed.

End Planner.

(** ** The planner on the sample fleet *)

Lemma simulation_error_handling_witness :
  computeConsolidation (Sample.simulator (inr errCandidateDeleting)) Sample.enabled
    [Sample.spotNode] = ([], Value (noCommand, None)) /\
  computeConsolidation (Sample.simulator (inr Sample.apiError)) Sample.enabled
    [Sample.spotNode] = ([], Value (noCommand, Some Sample.apiError)).
Proof.
  split.
  - apply (simulation_error_handling (H := Catalog.scheduling)
             (Sample.simulator (inr errCandidateDeleting)) Sample.enabled [Sample.spotNode]
             errCandidateDeleting); reflexivity.
  - apply (simulation_error_handling (H := Catalog.scheduling)
             (Sample.simulator (inr Sample.apiError)) Sample.enabled [Sample.spotNode]
             Sample.apiError); reflexivity.
Defined.

Lemma zero_replacements_delete_only_witness :
  computeConsolidation (Sample.simulator (inl (Sample.scheduled []))) Sample.enabled
    [Sample.spotNode; Sample.strayNode] =
  ([], Value ({| candidates := [Sample.spotNode; Sample.strayNode]; replacements := [] |}, None)).
Proof.
  apply (zero_replacements_delete_only (H := Catalog.scheduling)
           (Sample.simulator (inl (Sample.scheduled []))) Sample.enabled
           [Sample.spotNode; Sample.strayNode] (Sample.scheduled []));
    reflexivity.
Defined.

Lemma multiple_replacements_rejected_witness :
  computeConsolidation
    (Sample.simulator
       (inl (Sample.scheduled [Sample.replacement Sample.sixteen;
                               Sample.replacement Sample.sixteen])))
    Sample.enabled [Sample.spotNode] =
  ([unconsolidatable Sample.spotNode
      (Sprintf "Can't remove without creating %d candidates" [Int 2])],
   Value (noCommand, None)).
Proof.
  apply (proj1 (multiple_replacements_rejected (H := Catalog.scheduling)
                  (Sample.simulator
                     (inl (Sample.scheduled [Sample.replacement Sample.sixteen;
                                             Sample.replacement Sample.sixteen])))
                  Sample.enabled [Sample.spotNode])
               (Sample.scheduled [Sample.replacement Sample.sixteen;
                                  Sample.replacement Sample.sixteen]));
    [reflexivity | reflexivity | simpl; lia].
Defined.


(** Fourteen cheaper options, the last fourteen of the sample: the planner
    gives up and says so. *)
Example spot_to_spot_fourteen_abandons :
  computeSpotToSpotConsolidation
    (Sample.simulator (inl (Sample.scheduled [Sample.replacement (skipn 2 Sample.sixteen)])))
    Sample.enabled [Sample.spotNode]
    (Sample.scheduled [Sample.replacement (skipn 2 Sample.sixteen)]) 20 =
  ([unconsolidatable Sample.spotNode
      (Sprintf "SpotToSpotConsolidation requires %d cheaper instance type options than the current candidate to consolidate, got %d"
         [Int 15; Int 14])],
   Value (noCommand, None)).
Proof. vm_compute. reflexivity. Qed.

(** C1, on the code. One spot candidate of price 20.0, the feature enabled,
    and a new node claim whose sixteen spot options, all cheaper, are listed
    from the dearest (t16, 16.0) to the cheapest (t1, 1.0). Both filters keep
    the sixteen in their order, and the planner returns the candidate with
    the first fifteen of the list, t16 to t2: fifteen options, but in
    descending order of price and without the cheapest one, t1. The entry
    point [computeConsolidation] returns the same command. *)
Theorem spot_to_spot_keeps_first_fifteen_listed :
  Catalog.cheaperThan (Catalog.compatible Sample.sixteen Sample.spotOnly) Sample.spotOnly 20 =
    Sample.sixteen /\
  computeSpotToSpotConsolidation
    (Sample.simulator (inl (Sample.scheduled [Sample.replacement Sample.sixteen])))
    Sample.enabled [Sample.spotNode]
    (Sample.scheduled [Sample.replacement Sample.sixteen]) 20 =
    ([], Value ({| candidates := [Sample.spotNode];
                   replacements := [Sample.replacement (firstn 15 Sample.sixteen)] |}, None)) /\
  computeConsolidation
    (Sample.simulator (inl (Sample.scheduled [Sample.replacement Sample.sixteen])))
    Sample.enabled [Sample.spotNode] =
    ([], Value ({| candidates := [Sample.spotNode];
                   replacements := [Sample.replacement (firstn 15 Sample.sixteen)] |}, None)) /\
  map InstanceType.Name (firstn 15 Sample.sixteen) = Sample.firstFifteen /\
  Catalog.ascendingByPrice Sample.spotOnly (firstn 15 Sample.sixteen) = false /\
  Catalog.cheapestOf Sample.spotOnly (firstn 15 Sample.sixteen) [Sample.spotType "t1" 1] = false /\
  In (Sample.spotType "t1" 1) Sample.sixteen /\
  existsb (String.eqb "t1") (map InstanceType.Name (firstn 15 Sample.sixteen)) = false.
Proof.
  repeat split; try (vm_compute; reflexivity).
  do 15 right. left. reflexivity.
Qed.

(** * Further properties of the emptiness planner *)

(** The slice built so far only grows at its end, and the budget does not
    depend on it. *)
Lemma consumeBudget_acc (es : list Candidate) :
  forall (m : gmap string Z) (acc : list Candidate),
    consumeBudget m acc es =
      (acc ++ fst (consumeBudget m [] es), snd (consumeBudget m [] es)).
Proof.
  induction es as [|c es IH]; intros m acc; simpl.
  - by rewrite app_nil_r.
  - destruct (0 <? length (pods c))%nat; [apply IH|].
    destruct (budgetOf m (NodePool.Name (nodePool c)) >? 0); [|apply IH].
    rewrite (IH _ (acc ++ [c])), (IH _ [c]). simpl. by rewrite <- app_assoc.
Qed.

Lemma consumeBudget_app (es1 es2 : list Candidate) :
  forall (m : gmap string Z) (acc : list Candidate),
    consumeBudget m acc (es1 ++ es2) =
      consumeBudget (snd (consumeBudget m acc es1)) (fst (consumeBudget m acc es1)) es2.
Proof.
  induction es1 as [|c es1 IH]; intros m acc; simpl; [reflexivity|].
  destruct (0 <? length (pods c))%nat; [apply IH|].
  destruct (budgetOf m (NodePool.Name (nodePool c)) >? 0); apply IH.
Qed.

Lemma consumeBudget_sublist (es : list Candidate) :
  forall m : gmap string Z, sublist (fst (consumeBudget m [] es)) es.
Proof.
  induction es as [|c es IH]; intros m; simpl; [constructor|].
  destruct (0 <? length (pods c))%nat; [by constructor|].
  destruct (budgetOf m (NodePool.Name (nodePool c)) >? 0); [|by constructor].
  rewrite consumeBudget_acc. simpl. by constructor.
Qed.

Lemma consumeBudget_selected (es : list Candidate) :
  forall m : gmap string Z,
    Forall (fun cn => pods cn = [] /\ 0 < budgetOf m (NodePool.Name (nodePool cn)))
           (fst (consumeBudget m [] es)).
Proof.
  induction es as [|c es IH]; intros m; simpl; [constructor|].
  destruct (0 <? length (pods c))%nat eqn:Hpods; [apply IH|].
  destruct (Z.gtb_spec (budgetOf m (NodePool.Name (nodePool c))) 0) as [Hpos|Hle];
    [|apply IH].
  rewrite consumeBudget_acc. simpl. constructor.
  - split; [|lia]. destruct (pods c); [reflexivity | discriminate].
  - eapply Forall_impl; [apply IH|]. intros cn [Hp Hb]. split; [exact Hp|].
    rewrite budgetOf_insert in Hb. destruct (decide _) as [<-|]; lia.
Qed.

Lemma filter_sublist {A} (f : A -> bool) (l : list A) : sublist (List.filter f l) l.
Proof.
  induction l as [|a l IH]; simpl; [constructor|].
  destruct (f a); by constructor.
Qed.

Lemma Emptiness_candidates `{Scheduling} e m cs :
  candidates (command (Emptiness_ComputeCommand e m cs)) =
    fst (consumeBudget m [] (List.filter isEmptyCandidate cs)).
Proof. by rewrite Emptiness_ComputeCommand_unfold. Qed.

Lemma Emptiness_budgetAfter `{Scheduling} e m cs :
  budgetAfter (Emptiness_ComputeCommand e m cs) =
    snd (consumeBudget m [] (List.filter isEmptyCandidate cs)).
Proof. by rewrite Emptiness_ComputeCommand_unfold. Qed.

(** X1. The command of [ComputeCommand] deletes and never replaces: its
    candidates are candidates of the input, in the order of the input, each
    without pods, not being deleted, and of a pool whose budget was greater
    than zero when the call began; there is no replacement and no error. *)
Theorem emptiness_command_is_delete_only `{Scheduling}
    (e : Emptiness) (m : gmap string Z) (cs : list Candidate) :
  sublist (candidates (command (Emptiness_ComputeCommand e m cs))) cs /\
  Forall (fun cn => pods cn = [] /\
                    metav1_IsZero (NodeClaim.DeletionTimestamp (NodeClaim cn)) = true /\
                    0 < budgetOf m (NodePool.Name (nodePool cn)))
         (candidates (command (Emptiness_ComputeCommand e m cs))) /\
  replacements (command (Emptiness_ComputeCommand e m cs)) = [] /\
  err (Emptiness_ComputeCommand e m cs) = None.
Proof.
  split; [|split].
  - rewrite Emptiness_candidates.
    etrans; [apply consumeBudget_sublist | apply filter_sublist].
  - rewrite Emptiness_candidates. apply Forall_forall. intros cn Hin.
    pose proof (consumeBudget_selected (List.filter isEmptyCandidate cs) m) as Hsel.
    rewrite Forall_forall in Hsel. destruct (Hsel cn Hin) as [Hp Hb].
    assert (Hf : cn ∈ List.filter isEmptyCandidate cs).
    { eapply elem_of_sublist; [exact Hin | apply consumeBudget_sublist]. }
    apply list_elem_of_In in Hf. apply List.filter_In in Hf. destruct Hf as [_ Hf].
    unfold isEmptyCandidate in Hf. apply andb_prop in Hf. tauto.
  - rewrite Emptiness_ComputeCommand_unfold. by split.
Qed.

Lemma consumeBudget_first_served (es : list Candidate) :
  forall (m : gmap string Z) (k : string),
    ofGroup k (fst (consumeBudget m [] es)) =
      firstn (Z.to_nat (budgetOf m k)) (ofGroup k (withoutPods es)).
Proof.
  unfold ofGroup, withoutPods.
  induction es as [|c es IH]; intros m k; simpl.
  - by rewrite firstn_nil.
  - destruct (0 <? length (pods c))%nat; simpl; [apply IH|].
    destruct (Z.gtb_spec (budgetOf m (NodePool.Name (nodePool c))) 0) as [Hpos|Hle].
    + rewrite consumeBudget_acc. simpl. rewrite IH, budgetOf_insert.
      destruct (decide (NodePool.Name (nodePool c) = k)) as [Heq|Hne].
      * rewrite Heq in *. rewrite String.eqb_refl.
        replace (Z.to_nat (budgetOf m k)) with (S (Z.to_nat (budgetOf m k - 1))) by lia.
        reflexivity.
      * apply String.eqb_neq in Hne. by rewrite Hne.
    + rewrite IH.
      destruct (String.eqb_spec (NodePool.Name (nodePool c)) k) as [Heq|Hne]; [|reflexivity].
      rewrite Heq in *.
      replace (Z.to_nat (budgetOf m k)) with 0%nat by lia. reflexivity.
Qed.

Lemma filter_filter_implied {A} (f g : A -> bool) (l : list A) :
  (forall x, g x = true -> f x = true) ->
  List.filter f (List.filter g l) = List.filter g l.
Proof.
  intros Himp. induction l as [|a l IH]; simpl; [reflexivity|].
  destruct (g a) eqn:Hg; simpl; [|exact IH].
  by rewrite (Himp a Hg), IH.
Qed.

Lemma withoutPods_empty (cs : list Candidate) :
  withoutPods (List.filter isEmptyCandidate cs) = List.filter isEmptyCandidate cs.
Proof.
  apply filter_filter_implied. intros cn Hcn. unfold isEmptyCandidate in Hcn.
  apply andb_prop in Hcn. destruct Hcn as [_ Hp]. apply Nat.eqb_eq in Hp.
  by rewrite Hp.
Qed.

Lemma Emptiness_served `{Scheduling}
    (e : Emptiness) (m : gmap string Z) (cs : list Candidate) (k : string) :
  ofGroup k (fst (consumeBudget m [] (List.filter isEmptyCandidate cs))) =
    firstn (Z.to_nat (budgetOf m k)) (ofGroup k (List.filter isEmptyCandidate cs)).
Proof. rewrite consumeBudget_first_served. by rewrite withoutPods_empty. Qed.

(** X2. Within a pool the budget is spent first come, first served: the
    candidates of pool [k] in the command are the first [budget k] empty
    candidates of [k] in the input, all of them when there are fewer, and
    none when the entry is zero, negative or missing. *)
Theorem emptiness_first_come_first_served `{Scheduling}
    (e : Emptiness) (m : gmap string Z) (cs : list Candidate) (k : string) :
  ofGroup k (candidates (command (Emptiness_ComputeCommand e m cs))) =
    firstn (Z.to_nat (budgetOf m k)) (ofGroup k (List.filter isEmptyCandidate cs)).
Proof.
  rewrite Emptiness_candidates. by apply Emptiness_served.
Qed.

(** X3. An empty candidate of the input that the command leaves out was left
    out for lack of budget: after the call its pool's entry is zero or
    negative. *)
Theorem emptiness_skipped_means_exhausted `{Scheduling}
    (e : Emptiness) (m : gmap string Z) (cs : list Candidate) (cn : Candidate) :
  In cn cs ->
  isEmptyCandidate cn = true ->
  ~ In cn (candidates (command (Emptiness_ComputeCommand e m cs))) ->
  budgetOf (budgetAfter (Emptiness_ComputeCommand e m cs)) (NodePool.Name (nodePool cn)) <= 0.
Proof.
  intros Hin Hempty Hout.
  set (k := NodePool.Name (nodePool cn)).
  pose proof (Emptiness_served e m cs k) as Hfirst.
  rewrite Emptiness_candidates in Hout. rewrite Emptiness_budgetAfter.
  pose proof (consumeBudget_accounting (List.filter isEmptyCandidate cs) m [] k) as Hacc.
  simpl in Hacc.
  set (L := ofGroup k (List.filter isEmptyCandidate cs)) in *.
  assert (HinL : In cn L).
  { apply List.filter_In. split; [|apply String.eqb_refl].
    apply List.filter_In. by split. }
  assert (Hshort : (Z.to_nat (budgetOf m k) < length L)%nat).
  { destruct (Nat.lt_ge_cases (Z.to_nat (budgetOf m k)) (length L)) as [|Hge]; [done|].
    exfalso. apply Hout. rewrite firstn_all2 in Hfirst by exact Hge.
    rewrite <- Hfirst in HinL. apply List.filter_In in HinL. tauto. }
  rewrite Hfirst, length_firstn in Hacc. lia.
Qed.

Lemma emptiness_skipped_means_exhausted_witness :
  budgetOf (budgetAfter (Emptiness_ComputeCommand (H := Catalog.scheduling)
                           (Fleet.now 0) Fleet.budgets Fleet.mixed)) "default" <= 0.
Proof.
  apply (emptiness_skipped_means_exhausted (H := Catalog.scheduling)
           (Fleet.now 0) Fleet.budgets Fleet.mixed
           (Fleet.emptyNode "e" Sample.underutilized)).
  - do 4 right. left. reflexivity.
  - reflexivity.
  - vm_compute. intros Hin. decompose [or] Hin; try discriminate; assumption.
Defined.

Lemma consumeBudget_idle (es : list Candidate) :
  forall (m : gmap string Z) (acc : list Candidate),
    (forall cn, In cn es -> pods cn = [] -> budgetOf m (NodePool.Name (nodePool cn)) <= 0) ->
    consumeBudget m acc es = (acc, m).
Proof.
  induction es as [|c es IH]; intros m acc Hidle; simpl; [reflexivity|].
  assert (Hrest : forall cn, In cn es -> pods cn = [] ->
                             budgetOf m (NodePool.Name (nodePool cn)) <= 0)
    by (intros cn Hin; apply Hidle; by right).
  destruct (pods c) as [|p ps] eqn:Hp; simpl; [|by apply IH].
  destruct (Z.gtb_spec (budgetOf m (NodePool.Name (nodePool c))) 0) as [Hpos|Hle];
    [|by apply IH].
  specialize (Hidle c (or_introl eq_refl) Hp). lia.
Qed.

(** X4. The command is empty exactly when no empty candidate of the input
    belongs to a pool with budget left (in particular for no candidates, and
    for pools missing from the mapping); the mapping is then returned as it
    was. *)
Theorem emptiness_nothing_selected `{Scheduling}
    (e : Emptiness) (m : gmap string Z) (cs : list Candidate) :
  (candidates (command (Emptiness_ComputeCommand e m cs)) = [] <->
   forall cn, In cn cs -> isEmptyCandidate cn = true ->
              budgetOf m (NodePool.Name (nodePool cn)) <= 0) /\
  (candidates (command (Emptiness_ComputeCommand e m cs)) = [] ->
   budgetAfter (Emptiness_ComputeCommand e m cs) = m).
Proof.
  rewrite Emptiness_candidates, Emptiness_budgetAfter.
  assert (Hidle :
    (forall cn, In cn cs -> isEmptyCandidate cn = true ->
                budgetOf m (NodePool.Name (nodePool cn)) <= 0) ->
    consumeBudget m [] (List.filter isEmptyCandidate cs) = ([], m)).
  { intros Hno. apply consumeBudget_idle. intros cn Hin _.
    apply List.filter_In in Hin. destruct Hin. by apply Hno. }
  assert (Hback :
    fst (consumeBudget m [] (List.filter isEmptyCandidate cs)) = [] ->
    forall cn, In cn cs -> isEmptyCandidate cn = true ->
               budgetOf m (NodePool.Name (nodePool cn)) <= 0).
  { intros Hnil cn Hin Hempty.
    pose proof (Emptiness_served e m cs (NodePool.Name (nodePool cn))) as Hfirst.
    rewrite Hnil in Hfirst. simpl in Hfirst.
    destruct (Z.to_nat (budgetOf m (NodePool.Name (nodePool cn)))) eqn:Hb; [lia|].
    assert (HinL : In cn (ofGroup (NodePool.Name (nodePool cn))
                            (List.filter isEmptyCandidate cs))).
    { apply List.filter_In. split; [|apply String.eqb_refl].
      apply List.filter_In. by split. }
    destruct (ofGroup _ _); [destruct HinL | discriminate]. }
  split; [split|].
  - exact Hback.
  - intros Hno. by rewrite Hidle.
  - intros Hnil. by rewrite Hidle by auto.
Qed.

Lemma emptiness_nothing_selected_witness :
  candidates (command (Emptiness_ComputeCommand (H := Catalog.scheduling)
                         (Fleet.now 0) {[ "default" := 0; "batch" := -3 ]} Fleet.mixed)) = [] /\
  budgetAfter (Emptiness_ComputeCommand (H := Catalog.scheduling)
                 (Fleet.now 0) {[ "default" := 0; "batch" := -3 ]} Fleet.mixed) =
    {[ "default" := 0; "batch" := -3 ]}.
Proof.
  pose proof (emptiness_nothing_selected (H := Catalog.scheduling)
                (Fleet.now 0) {[ "default" := 0; "batch" := -3 ]} Fleet.mixed) as [Hiff Hsame].
  assert (Hnil : candidates (command (Emptiness_ComputeCommand (H := Catalog.scheduling)
                    (Fleet.now 0) {[ "default" := 0; "batch" := -3 ]} Fleet.mixed)) = []).
  { apply Hiff. intros cn Hin _. simpl in Hin.
    decompose [or] Hin; subst; try (vm_compute; discriminate); contradiction. }
  split; [exact Hnil | exact (Hsame Hnil)].
Defined.

(** X5. Planning a list of candidates in one call is planning its front and
    then its back against the budget the front left: the command is the two
    commands one after the other and the mapping is the one left by the
    second call. *)
Theorem emptiness_plans_compose `{Scheduling}
    (e : Emptiness) (m : gmap string Z) (cs1 cs2 : list Candidate) :
  candidates (command (Emptiness_ComputeCommand e m (cs1 ++ cs2))) =
    candidates (command (Emptiness_ComputeCommand e m cs1)) ++
    candidates (command (Emptiness_ComputeCommand e
                           (budgetAfter (Emptiness_ComputeCommand e m cs1)) cs2)) /\
  budgetAfter (Emptiness_ComputeCommand e m (cs1 ++ cs2)) =
    budgetAfter (Emptiness_ComputeCommand e
                   (budgetAfter (Emptiness_ComputeCommand e m cs1)) cs2).
Proof.
  rewrite !Emptiness_candidates, !Emptiness_budgetAfter.
  rewrite List.filter_app, consumeBudget_app.
  rewrite (consumeBudget_acc _ _ (fst _)). simpl. by split.
Qed.

(** * Further properties of the eligibility predicates *)

(** With a cooldown set, the emptiness predicate is this test, and it is
    silent. *)
Lemma Emptiness_ShouldDisrupt_cooldown (e : Emptiness) (c : Candidate)
    (ca : NillableDuration.t) (d : Duration) :
  Disruption.ConsolidateAfter (NodePool.Disruption (nodePool c)) = Some ca ->
  NillableDuration.Duration ca = Some d ->
  Emptiness_ShouldDisrupt e c =
    ([], Value (String.eqb (Disruption.ConsolidationPolicy (NodePool.Disruption (nodePool c)))
                           v1beta1.ConsolidationPolicyWhenEmpty &&
                match NodeClaim.GetCondition (NodeClaim c) v1beta1.Empty with
                | Some cond =>
                    String.eqb (Condition.Status cond) "True" &&
                    (Condition.LastTransitionTime cond + d <=? clock_Now e)
                | None => false
                end)).
Proof.
  intros Hca Hd. unfold Emptiness_ShouldDisrupt. cbn zeta. rewrite Hca, Hd.
  destruct (String.eqb _ v1beta1.ConsolidationPolicyWhenEmpty); simpl; [|reflexivity].
  destruct (NodeClaim.GetCondition (NodeClaim c) v1beta1.Empty) as [cond|]; simpl;
    [|reflexivity].
  destruct (String.eqb (Condition.Status cond) "True"); simpl; [|reflexivity].
  rewrite Hd. simpl. unfold Time_Before, Time_Add.
  by rewrite Z.leb_antisym.
Qed.

(** Without a cooldown the emptiness predicate never accepts. *)
Lemma Emptiness_ShouldDisrupt_no_cooldown (e : Emptiness) (c : Candidate) :
  (forall ca d, Disruption.ConsolidateAfter (NodePool.Disruption (nodePool c)) = Some ca ->
                NillableDuration.Duration ca = Some d -> False) ->
  outcome (Emptiness_ShouldDisrupt e c) <> Value true.
Proof.
  intros Hno. unfold Emptiness_ShouldDisrupt. cbn zeta.
  destruct (String.eqb _ v1beta1.ConsolidationPolicyWhenEmpty); simpl; [|discriminate].
  destruct (Disruption.ConsolidateAfter (NodePool.Disruption (nodePool c))) as [ca|].
  - destruct (NillableDuration.Duration ca) as [d|] eqn:Hd; simpl; [|discriminate].
    exfalso. by eapply Hno.
  - destruct (NodeClaim.GetCondition (NodeClaim c) v1beta1.Empty) as [cond|]; simpl;
      [|discriminate].
    destruct (String.eqb (Condition.Status cond) "True"); simpl; discriminate.
Qed.

(** X6. The emptiness predicate accepts a candidate exactly when its pool's
    policy is WhenEmpty, the pool sets a cooldown, the candidate's first
    Empty condition is true and the cooldown has elapsed since that
    condition last changed, the instant of expiry included. It accepts
    without publishing an event. *)
Theorem emptiness_accepts_iff (e : Emptiness) (c : Candidate) :
  (outcome (Emptiness_ShouldDisrupt e c) = Value true <->
   Disruption.ConsolidationPolicy (NodePool.Disruption (nodePool c)) =
     v1beta1.ConsolidationPolicyWhenEmpty /\
   exists ca d cond,
     Disruption.ConsolidateAfter (NodePool.Disruption (nodePool c)) = Some ca /\
     NillableDuration.Duration ca = Some d /\
     NodeClaim.GetCondition (NodeClaim c) v1beta1.Empty = Some cond /\
     Condition.Status cond = "True" /\
     Condition.LastTransitionTime cond + d <= clock_Now e) /\
  (outcome (Emptiness_ShouldDisrupt e c) = Value true ->
   events (Emptiness_ShouldDisrupt e c) = []).
Proof.
  destruct (Disruption.ConsolidateAfter (NodePool.Disruption (nodePool c))) as [ca|] eqn:Hca.
  1: destruct (NillableDuration.Duration ca) as [d|] eqn:Hd.
  1: { rewrite (Emptiness_ShouldDisrupt_cooldown e c ca d Hca Hd). simpl.
       split; [|reflexivity]. split.
       - intros Hacc. injection Hacc as Hacc.
         apply andb_prop in Hacc as [Hp Hc]. apply String.eqb_eq in Hp.
         split; [exact Hp|].
         destruct (NodeClaim.GetCondition (NodeClaim c) v1beta1.Empty) as [cond|];
           [|discriminate].
         apply andb_prop in Hc as [Hs Ht]. apply String.eqb_eq in Hs.
         apply Z.leb_le in Ht. exists ca, d, cond. auto.
       - intros (Hp & ca' & d' & cond & Hca' & Hd' & Hcond & Hs & Ht).
         injection Hca' as <-. rewrite Hd in Hd'. injection Hd' as <-.
         rewrite Hp, Hcond, Hs. simpl. apply Z.leb_le in Ht. by rewrite Ht. }
  all: assert (Hnever : outcome (Emptiness_ShouldDisrupt e c) <> Value true)
    by (apply Emptiness_ShouldDisrupt_no_cooldown; intros ca' d' Hca' Hd'; congruence).
  all: split; [|intros Hacc; contradiction].
  all: split; [intros Hacc; contradiction|].
  all: intros (_ & ca' & d' & cond & Hca' & Hd' & _); exfalso; congruence.
Qed.

(** X7. Time only helps: a candidate the emptiness predicate accepts at one
    instant is accepted at every later instant, the candidate being the
    same. *)
Theorem emptiness_acceptance_is_monotone (t t' : Time) (c : Candidate) :
  outcome (Emptiness_ShouldDisrupt {| clock_Now := t |} c) = Value true ->
  t <= t' ->
  Emptiness_ShouldDisrupt {| clock_Now := t' |} c = ([], Value true).
Proof.
  intros Hacc Hlater.
  destruct (Disruption.ConsolidateAfter (NodePool.Disruption (nodePool c))) as [ca|] eqn:Hca.
  1: destruct (NillableDuration.Duration ca) as [d|] eqn:Hd.
  1: { rewrite (Emptiness_ShouldDisrupt_cooldown {| clock_Now := t |} c ca d Hca Hd) in Hacc.
       rewrite (Emptiness_ShouldDisrupt_cooldown {| clock_Now := t' |} c ca d Hca Hd).
       simpl in *.
       injection Hacc as Hacc. apply andb_prop in Hacc as [Hp Hc]. rewrite Hp. simpl.
       destruct (NodeClaim.GetCondition (NodeClaim c) v1beta1.Empty) as [cond|];
         [|discriminate].
       apply andb_prop in Hc as [Hs Ht]. rewrite Hs. simpl.
       apply Z.leb_le in Ht.
       replace (Condition.LastTransitionTime cond + d <=? t') with true
         by (symmetry; apply Z.leb_le; lia).
       reflexivity. }
  all: exfalso; revert Hacc; apply Emptiness_ShouldDisrupt_no_cooldown;
    intros ca' d' Hca' Hd'; congruence.
Qed.

Lemma emptiness_acceptance_is_monotone_witness :
  Emptiness_ShouldDisrupt {| clock_Now := 500 |}
    (Sample.node "c" ∅ Fleet.batch (Eligibility.emptySince 10) (Sample.spotType "big" 20) []) =
    ([], Value true).
Proof.
  apply (emptiness_acceptance_is_monotone 40 500); [reflexivity | lia].
Defined.

Lemma consolidation_accepts_policy `{Scheduling} (c : consolidation) (cn : Candidate) :
  outcome (consolidation_ShouldDisrupt c cn) = Value true ->
  Disruption.ConsolidationPolicy (NodePool.Disruption (nodePool cn)) =
    v1beta1.ConsolidationPolicyWhenUnderutilized.
Proof.
  unfold consolidation_ShouldDisrupt. cbn zeta.
  destruct (String.eqb (default "" _) "true"); simpl; [discriminate|].
  destruct (String.eqb_spec (Disruption.ConsolidationPolicy (NodePool.Disruption (nodePool cn)))
                            v1beta1.ConsolidationPolicyWhenUnderutilized); simpl;
    [auto | discriminate].
Qed.

Lemma Emptiness_accepts_policy (e : Emptiness) (c : Candidate) :
  outcome (Emptiness_ShouldDisrupt e c) = Value true ->
  Disruption.ConsolidationPolicy (NodePool.Disruption (nodePool c)) =
    v1beta1.ConsolidationPolicyWhenEmpty.
Proof.
  unfold Emptiness_ShouldDisrupt. cbn zeta.
  destruct (String.eqb_spec (Disruption.ConsolidationPolicy (NodePool.Disruption (nodePool c)))
                            v1beta1.ConsolidationPolicyWhenEmpty); simpl;
    [auto | discriminate].
Qed.


(** X9. No candidate is accepted by both predicates: consolidation wants the
    WhenUnderutilized policy and emptiness the WhenEmpty policy. *)
Theorem predicates_never_both_accept `{Scheduling}
    (c : consolidation) (e : Emptiness) (cn : Candidate) :
  ~ (outcome (consolidation_ShouldDisrupt c cn) = Value true /\
     outcome (Emptiness_ShouldDisrupt e cn) = Value true).
Proof.
  intros [Hc He].
  apply consolidation_accepts_policy in Hc. apply Emptiness_accepts_policy in He.
  rewrite Hc in He. discriminate.
Qed.

(** * Further properties of the consolidation planner *)

Lemma firstn_incl {A} (n : nat) (l : list A) : incl (firstn n l) l.
Proof.
  revert n. induction l as [|a l IH]; intros [|n] y Hy; simpl in *; try contradiction.
  destruct Hy as [->|Hin]; [by left | right; by apply (IH n)].
Qed.

Lemma forSingle_cases (cands : list Candidate) (reason : Reason) :
  forSingle cands reason = [] \/
  exists c0 r, cands = [c0] /\ forSingle cands reason = [unconsolidatable c0 r].
Proof.
  destruct cands as [|c0 [|c1 rest]]; simpl; eauto.
Qed.

Lemma allExistingAreSpot_fold (cands : list Candidate) :
  fold_left (fun allSpot cn =>
               if negb (String.eqb (capacityType cn) v1beta1.CapacityTypeSpot)
               then false else allSpot) cands true = allSpot cands.
Proof.
  assert (Hfalse : forall cs, fold_left (fun (a : bool) cn =>
               if negb (String.eqb (capacityType cn) v1beta1.CapacityTypeSpot)
               then false else a) cs false = false).
  { induction cs as [|cn cs IH]; simpl; [reflexivity|].
    by destruct (String.eqb (capacityType cn) v1beta1.CapacityTypeSpot). }
  unfold allSpot. induction cands as [|cn cands IH]; simpl; [reflexivity|].
  destruct (String.eqb (capacityType cn) v1beta1.CapacityTypeSpot); simpl; [exact IH|].
  apply Hfalse.
Qed.

Lemma sumCandidatePrices_error (cs : list Candidate) :
  forall (p : float) (e : error),
    sumCandidatePrices p cs = inr e ->
    exists cn, In cn cs /\ offeringOf cn = None /\ e = offeringError cn.
Proof.
  induction cs as [|cn cs IH]; intros p e Hsum; simpl in Hsum; [discriminate|].
  fold (offeringOf cn) in Hsum. destruct (offeringOf cn) as [o|] eqn:Ho.
  - destruct (IH _ _ Hsum) as (cn' & Hin & Hnone & He). exists cn'.
    split; [by right | by split].
  - injection Hsum as <-. exists cn. split; [by left | by split].
Qed.

Section Shape.
Context `{Scheduling}.
Variables (c : consolidation) (ctx : Context) (cands : list Candidate).

Lemma computeSpotToSpotConsolidation_planned (results : Results.t)
    (nc : SchedulingNodeClaim.t) (price : float) :
  Results.NewNodeClaims results = [nc] ->
  getCandidatePrices cands = inl price ->
  planned c cands (computeSpotToSpotConsolidation c ctx cands results price).
Proof.
  intros Hone Hprice. unfold computeSpotToSpotConsolidation.
  rewrite !publishForSingle_then, Hone. cbn [index nth_error].
  destruct (SpotToSpotConsolidation ctx); simpl.
  2: { constructor. apply forSingle_cases. }
  fold (cheaperSpotOptions nc price).
  destruct (cheaperSpotOptions nc price) as [|it its] eqn:Hopts.
  { simpl. constructor. apply forSingle_cases. }
  cbn [length Nat.eqb].
  destruct cands as [|c0 [|c1 rest]] eqn:Hcands.
  - simpl. destruct (_ <? _)%nat; simpl.
    + by apply planned_panic.
    + eapply planned_replace; [exact Hprice | discriminate |].
      unfold cheaperSpotOptions in Hopts. rewrite Hopts.
      apply (firstn_incl MinInstanceTypesForSpotToSpotConsolidation (it :: its)).
  - simpl. destruct (_ <? _)%nat; simpl.
    + constructor. right. eauto.
    + eapply planned_replace; [exact Hprice | discriminate |].
      unfold cheaperSpotOptions in Hopts. rewrite Hopts.
      apply (firstn_incl MinInstanceTypesForSpotToSpotConsolidation (it :: its)).
  - simpl. eapply planned_replace; [exact Hprice | discriminate |].
    unfold cheaperSpotOptions in Hopts. rewrite Hopts. apply incl_refl.
Qed.

Lemma computeConsolidation_planned :
  planned c cands (computeConsolidation c ctx cands).
Proof.
  unfold computeConsolidation.
  destruct (simulateScheduling c cands) as [results|e] eqn:Hsim.
  2: { destruct (errors_Is e errCandidateDeleting) eqn:His.
       - constructor. by left.
       - apply planned_error. by left. }
  rewrite !publishForSingle_then.
  destruct (Results.AllNonPendingPodsScheduled results).
  2: { simpl. constructor. apply forSingle_cases. }
  simpl.
  destruct (Results.NewNodeClaims results) as [|nc [|n2 ns]] eqn:Hclaims; simpl.
  - apply planned_delete.
  - destruct (getCandidatePrices cands) as [price|e] eqn:Hprice; simpl.
    2: { apply planned_error. right.
         destruct (sumCandidatePrices_error cands 0%float e Hprice) as (cn & Hin & Hnone & ->).
         eauto. }
    match goal with |- context [if ?b then _ else _] => destruct b end.
    + pose proof (computeSpotToSpotConsolidation_planned results nc price Hclaims Hprice)
        as Hspot.
      by destruct (computeSpotToSpotConsolidation c ctx cands results price) as [evs r].
    + destruct (filterByPrice _ _ _) as [|it its] eqn:Hopts; simpl.
      * constructor. apply forSingle_cases.
      * eapply planned_replace; [exact Hprice | discriminate |].
        simpl. rewrite <- Hopts. apply incl_refl.
  - constructor. apply forSingle_cases.
Qed.

End Shape.

Section Outcomes.
Context `{Scheduling}.
Variables (c : consolidation) (ctx : Context) (cands : list Candidate).

(** X10. A command of the planner is all or nothing: it is the empty
    command, or it holds exactly the candidates the planner was given, with
    at most one replacement; and a command that is not empty comes with no
    error and no event. *)
Theorem consolidation_command_all_or_nothing (cmd : Command) (oe : option error) :
  outcome (computeConsolidation c ctx cands) = Value (cmd, oe) ->
  cmd = noCommand \/
  (candidates cmd = cands /\ (length (replacements cmd) <= 1)%nat /\ oe = None /\
   events (computeConsolidation c ctx cands) = []).
Proof.
  pose proof (computeConsolidation_planned c ctx cands) as Hp.
  destruct (computeConsolidation c ctx cands) as [evs r]. simpl. intros ->.
  inversion Hp; subst; simpl; auto.
Qed.


(** X12. When the planner returns an error the command is empty and nothing
    was published, and the error is either the simulation's own error, which
    is not the deleting sentinel, or the wrapped error of a candidate that
    has no offering for its capacity type and zone. *)
Theorem consolidation_errors (cmd : Command) (e : error) :
  outcome (computeConsolidation c ctx cands) = Value (cmd, Some e) ->
  cmd = noCommand /\
  events (computeConsolidation c ctx cands) = [] /\
  ((simulateScheduling c cands = inr e /\ errors_Is e errCandidateDeleting = false) \/
   (exists cn, In cn cands /\ offeringOf cn = None /\
               e = ErrorfW "getting offering price from candidate node, %w" []
                     (offeringError cn))).
Proof.
  pose proof (computeConsolidation_planned c ctx cands) as Hp.
  destruct (computeConsolidation c ctx cands) as [evs r]. simpl. intros ->.
  inversion Hp; subst; auto.
Qed.

(** X13. A replacement the planner returns can be launched cheaper: its
    instance type options are not empty, and each of them passed
    [filterByPrice] against the sum of the candidates' prices. *)
Theorem consolidation_replacement_options (cmd : Command) (oe : option error)
    (nc : SchedulingNodeClaim.t) :
  outcome (computeConsolidation c ctx cands) = Value (cmd, oe) ->
  In nc (replacements cmd) ->
  SchedulingNodeClaim.InstanceTypeOptions nc <> [] /\
  exists price options reqs,
    getCandidatePrices cands = inl price /\
    incl (SchedulingNodeClaim.InstanceTypeOptions nc) (filterByPrice options reqs price).
Proof.
  pose proof (computeConsolidation_planned c ctx cands) as Hp.
  destruct (computeConsolidation c ctx cands) as [evs r]. simpl. intros -> Hin.
  inversion Hp; subst; simpl in Hin; try contradiction.
  destruct Hin as [<-|[]]. split; [assumption|]. eauto.
Qed.

(** X14. When the simulation leaves a non-pending pod unscheduled, the
    planner returns the empty command and no error, whatever new node claims
    the simulation proposes; for a single candidate it publishes the
    simulation's scheduling errors. *)
Theorem unschedulable_pods_abandon (results : Results.t) :
  simulateScheduling c cands = inl results ->
  Results.AllNonPendingPodsScheduled results = false ->
  computeConsolidation c ctx cands =
    (forSingle cands (Text (Results.NonPendingPodSchedulingErrors results)),
     Value (noCommand, None)).
Proof.
  intros Hsim Hall. unfold computeConsolidation.
  rewrite Hsim, Hall. simpl. apply publishForSingle_then.
Qed.

(** With one new node claim and every candidate priced, the planner takes
    the spot-to-spot path when all candidates are spot and the new node
    claim allows spot, and otherwise filters the options by price and, when
    the new node claim allows both spot and on-demand, requires spot. *)
Lemma computeConsolidation_one_claim (results : Results.t)
    (nc : SchedulingNodeClaim.t) (price : float) :
  simulateScheduling c cands = inl results ->
  Results.AllNonPendingPodsScheduled results = true ->
  Results.NewNodeClaims results = [nc] ->
  getCandidatePrices cands = inl price ->
  computeConsolidation c ctx cands =
    if allSpot cands && permits nc v1beta1.CapacityTypeSpot
    then computeSpotToSpotConsolidation c ctx cands results price
    else
      match filterByPrice (SchedulingNodeClaim.InstanceTypeOptions nc)
                          (SchedulingNodeClaim.Requirements nc) price with
      | [] => (forSingle cands (Text "Can't replace with a cheaper node"),
               Value (noCommand, None))
      | options =>
          ([], Value ({| candidates := cands;
                         replacements :=
                           [SchedulingNodeClaim.mk _
                              (if permits nc v1beta1.CapacityTypeSpot &&
                                  permits nc v1beta1.CapacityTypeOnDemand
                               then requireSpot (SchedulingNodeClaim.Requirements nc)
                               else SchedulingNodeClaim.Requirements nc)
                              options] |}, None))
      end.
Proof.
  intros Hsim Hall Hone Hprice. unfold computeConsolidation.
  rewrite Hsim, Hall, Hone, Hprice, allExistingAreSpot_fold, !publishForSingle_then.
  simpl. fold (permits nc v1beta1.CapacityTypeSpot).
  destruct (allSpot cands && permits nc v1beta1.CapacityTypeSpot).
  - by destruct (computeSpotToSpotConsolidation c ctx cands results price).
  - fold (permits nc v1beta1.CapacityTypeOnDemand).
    by destruct (filterByPrice _ _ _).
Qed.



(** X19. The SpotToSpotConsolidation gate matters only for spot: when some
    candidate is not spot, the planner returns the same with the gate on and
    off. *)
Theorem gate_is_irrelevant_off_spot (ctx' : Context) :
  allSpot cands = false ->
  computeConsolidation c ctx cands = computeConsolidation c ctx' cands.
Proof.
  intros Hmixed. unfold computeConsolidation.
  destruct (simulateScheduling c cands) as [results|e]; [|reflexivity].
  destruct (Results.AllNonPendingPodsScheduled results); [|reflexivity]. simpl.
  destruct (Results.NewNodeClaims results) as [|nc [|n2 ns]]; simpl; try reflexivity.
  destruct (getCandidatePrices cands) as [price|e]; [|reflexivity].
  rewrite allExistingAreSpot_fold, Hmixed. reflexivity.
Qed.

(** X20. Replacing candidates that are not all spot (or by a node claim that
    does not allow spot): the options of the new node claim are filtered by
    price against the sum of the candidates' prices under the claim's own
    requirements; with nothing cheaper the planner gives up, otherwise it
    returns the candidates and the claim with the cheaper options, required
    to be spot exactly when the claim allowed both spot and on-demand. *)
Theorem replace_with_cheaper (results : Results.t)
    (nc : SchedulingNodeClaim.t) (price : float) :
  simulateScheduling c cands = inl results ->
  Results.AllNonPendingPodsScheduled results = true ->
  Results.NewNodeClaims results = [nc] ->
  getCandidatePrices cands = inl price ->
  allSpot cands && permits nc v1beta1.CapacityTypeSpot = false ->
  computeConsolidation c ctx cands =
    match filterByPrice (SchedulingNodeClaim.InstanceTypeOptions nc)
                        (SchedulingNodeClaim.Requirements nc) price with
    | [] => (forSingle cands (Text "Can't replace with a cheaper node"),
             Value (noCommand, None))
    | options =>
        ([], Value ({| candidates := cands;
                       replacements :=
                         [SchedulingNodeClaim.mk _
                            (if permits nc v1beta1.CapacityTypeSpot &&
                                permits nc v1beta1.CapacityTypeOnDemand
                             then requireSpot (SchedulingNodeClaim.Requirements nc)
                             else SchedulingNodeClaim.Requirements nc)
                            options] |}, None))
    end.
Proof.
  intros Hsim Hall Hone Hprice Hpath.
  rewrite (computeConsolidation_one_claim results nc price Hsim Hall Hone Hprice).
  by rewrite Hpath.
Qed.

End Outcomes.

(** ** The outcomes on the sample fleet *)

Import Catalog.

Lemma consolidation_command_all_or_nothing_witness :
  {| candidates := [Sample.spotNode];
     replacements := [Sample.replacement (firstn 15 Sample.sixteen)] |} = noCommand \/
  (candidates {| candidates := [Sample.spotNode];
                 replacements := [Sample.replacement (firstn 15 Sample.sixteen)] |} =
     [Sample.spotNode] /\
   (length (replacements {| candidates := [Sample.spotNode];
                            replacements := [Sample.replacement (firstn 15 Sample.sixteen)] |})
      <= 1)%nat /\
   @None error = None /\
   events (computeConsolidation
             (Sample.simulator (inl (Sample.scheduled [Sample.replacement Sample.sixteen])))
             Sample.enabled [Sample.spotNode]) = []).
Proof.
  apply (consolidation_command_all_or_nothing (H := Catalog.scheduling)
           (Sample.simulator (inl (Sample.scheduled [Sample.replacement Sample.sixteen])))
           Sample.enabled [Sample.spotNode]).
  vm_compute. reflexivity.
Defined.


Lemma consolidation_errors_witness :
  noCommand = noCommand /\
  events (computeConsolidation
            (Sample.simulator (inr Sample.apiError)) Sample.enabled [Sample.spotNode]) = [] /\
  ((simulateScheduling (Sample.simulator (inr Sample.apiError)) [Sample.spotNode] =
      inr Sample.apiError /\
    errors_Is Sample.apiError errCandidateDeleting = false) \/
   (exists cn, In cn [Sample.spotNode] /\ offeringOf cn = None /\
               Sample.apiError =
                 ErrorfW "getting offering price from candidate node, %w" []
                   (offeringError cn))).
Proof.
  apply (consolidation_errors (H := Catalog.scheduling)
           (Sample.simulator (inr Sample.apiError)) Sample.enabled [Sample.spotNode]
           noCommand Sample.apiError).
  reflexivity.
Defined.

Lemma consolidation_replacement_options_witness :
  SchedulingNodeClaim.InstanceTypeOptions (Sample.replacement (firstn 15 Sample.sixteen)) <> [] /\
  exists price options reqs,
    getCandidatePrices [Sample.spotNode] = inl price /\
    incl (SchedulingNodeClaim.InstanceTypeOptions
            (Sample.replacement (firstn 15 Sample.sixteen)))
         (filterByPrice options reqs price).
Proof.
  apply (consolidation_replacement_options (H := Catalog.scheduling)
           (Sample.simulator (inl (Sample.scheduled [Sample.replacement Sample.sixteen])))
           Sample.enabled [Sample.spotNode]
           {| candidates := [Sample.spotNode];
              replacements := [Sample.replacement (firstn 15 Sample.sixteen)] |} None).
  - vm_compute. reflexivity.
  - left. reflexivity.
Defined.

Lemma unschedulable_pods_abandon_witness :
  computeConsolidation
    (Sample.simulator
       (inl (Fleet.unscheduled [Sample.replacement Sample.sixteen] "pod-a: no capacity")))
    Sample.enabled [Sample.spotNode; Fleet.spotNodeB] =
  ([], Value (noCommand, None)).
Proof.
  apply (unschedulable_pods_abandon (H := Catalog.scheduling)
           (Sample.simulator
              (inl (Fleet.unscheduled [Sample.replacement Sample.sixteen] "pod-a: no capacity")))
           Sample.enabled [Sample.spotNode; Fleet.spotNodeB]
           (Fleet.unscheduled [Sample.replacement Sample.sixteen] "pod-a: no capacity"));
    reflexivity.
Defined.



Lemma gate_is_irrelevant_off_spot_witness :
  computeConsolidation
    (Sample.simulator (inl (Sample.scheduled [Fleet.flexible Sample.sixteen])))
    Sample.enabled [Fleet.onDemandNode] =
  computeConsolidation
    (Sample.simulator (inl (Sample.scheduled [Fleet.flexible Sample.sixteen])))
    Fleet.disabledGate [Fleet.onDemandNode].
Proof.
  apply (gate_is_irrelevant_off_spot (H := Catalog.scheduling)). reflexivity.
Defined.

Lemma replace_with_cheaper_witness :
  computeConsolidation
    (Sample.simulator (inl (Sample.scheduled [Fleet.flexible Sample.sixteen])))
    Fleet.disabledGate [Fleet.onDemandNode] =
  match filterByPrice (SchedulingNodeClaim.InstanceTypeOptions (Fleet.flexible Sample.sixteen))
                      (SchedulingNodeClaim.Requirements (Fleet.flexible Sample.sixteen)) 20 with
  | [] => (forSingle [Fleet.onDemandNode] (Text "Can't replace with a cheaper node"),
           Value (noCommand, None))
  | options =>
      ([], Value ({| candidates := [Fleet.onDemandNode];
                     replacements :=
                       [SchedulingNodeClaim.mk _
                          (if permits (Fleet.flexible Sample.sixteen) v1beta1.CapacityTypeSpot &&
                              permits (Fleet.flexible Sample.sixteen) v1beta1.CapacityTypeOnDemand
                           then requireSpot (SchedulingNodeClaim.Requirements
                                               (Fleet.flexible Sample.sixteen))
                           else SchedulingNodeClaim.Requirements (Fleet.flexible Sample.sixteen))
                          options] |}, None))
  end.
Proof.
  apply (replace_with_cheaper (H := Catalog.scheduling)
           (Sample.simulator (inl (Sample.scheduled [Fleet.flexible Sample.sixteen])))
           Fleet.disabledGate [Fleet.onDemandNode]
           (Sample.scheduled [Fleet.flexible Sample.sixteen])
           (Fleet.flexible Sample.sixteen) 20);
    reflexivity.
Defined.

(** On the sample: an on-demand node of price 20.0 against a new node claim
    that allows spot and on-demand keeps the sixteen cheaper options and has
    its requirement narrowed to spot. *)
Example on_demand_replacement_requires_spot :
  computeConsolidation
    (Sample.simulator (inl (Sample.scheduled [Fleet.flexible Sample.sixteen])))
    Fleet.disabledGate [Fleet.onDemandNode] =
  ([], Value ({| candidates := [Fleet.onDemandNode];
                 replacements := [Sample.replacement Sample.sixteen] |}, None)).
Proof. vm_compute. reflexivity. Qed.

Lemma spot_to_spot_below_minimum_witness :
  outcome (computeSpotToSpotConsolidation
             (Sample.simulator
                (inl (Sample.scheduled [Sample.replacement (skipn 2 Sample.sixteen)])))
             Sample.enabled [Sample.spotNode]
             (Sample.scheduled [Sample.replacement (skipn 2 Sample.sixteen)]) 20) =
    Value (noCommand, None).
Proof.
  apply (spot_to_spot_below_minimum (H := Catalog.scheduling)
           (Sample.simulator
              (inl (Sample.scheduled [Sample.replacement (skipn 2 Sample.sixteen)])))
           Sample.enabled Sample.spotNode
           (Sample.scheduled [Sample.replacement (skipn 2 Sample.sixteen)])
           (Sample.replacement (skipn 2 Sample.sixteen)) [] 20);
    [reflexivity | reflexivity |].
  vm_compute. lia.
Defined.

Lemma spot_to_spot_truncates_witness :
  computeSpotToSpotConsolidation
    (Sample.simulator (inl (Sample.scheduled [Sample.replacement Sample.sixteen])))
    Sample.enabled [Sample.spotNode]
    (Sample.scheduled [Sample.replacement Sample.sixteen]) 20 =
  ([], Value ({| candidates := [Sample.spotNode];
                 replacements :=
                   [SchedulingNodeClaim.mk _
                      (requireSpot (SchedulingNodeClaim.Requirements
                                      (Sample.replacement Sample.sixteen)))
                      (firstn MinInstanceTypesForSpotToSpotConsolidation
                              (cheaperSpotOptions (Sample.replacement Sample.sixteen) 20))] |},
              None)).
Proof.
  apply (spot_to_spot_truncates (H := Catalog.scheduling)
           (Sample.simulator (inl (Sample.scheduled [Sample.replacement Sample.sixteen])))
           Sample.enabled Sample.spotNode
           (Sample.scheduled [Sample.replacement Sample.sixteen])
           (Sample.replacement Sample.sixteen) [] 20);
    [reflexivity | reflexivity |].
  vm_compute. lia.
Defined.

(** X21. Which exclusions are told to the user. The emptiness predicate
    publishes an event exactly when the pool's policy is WhenEmpty and the
    pool has disabled consolidation; the consolidation predicate exactly
    when the candidate is marked do-not-consolidate, or the pool's policy is
    WhenUnderutilized and the pool has disabled consolidation. A candidate
    excluded for its pool's policy alone is excluded silently. *)
Theorem predicates_publish_iff `{Scheduling}
    (c : consolidation) (e : Emptiness) (cn : Candidate) :
  (events (Emptiness_ShouldDisrupt e cn) <> [] <->
   (Disruption.ConsolidationPolicy (NodePool.Disruption (nodePool cn)) =
      v1beta1.ConsolidationPolicyWhenEmpty /\
    consolidationDisabled cn)) /\
  (events (consolidation_ShouldDisrupt c cn) <> [] <->
   (doNotConsolidate cn \/
    (Disruption.ConsolidationPolicy (NodePool.Disruption (nodePool cn)) =
       v1beta1.ConsolidationPolicyWhenUnderutilized /\
     consolidationDisabled cn))).
Proof.
  assert (Hdis : forall ca, Disruption.ConsolidateAfter (NodePool.Disruption (nodePool cn)) = Some ca ->
                            NillableDuration.Duration ca = None -> consolidationDisabled cn)
    by (intros ca Hca Hd; exists ca; auto).
  split.
  - unfold Emptiness_ShouldDisrupt. cbn zeta.
    destruct (String.eqb_spec (Disruption.ConsolidationPolicy (NodePool.Disruption (nodePool cn)))
                              v1beta1.ConsolidationPolicyWhenEmpty) as [Hp|Hp]; simpl.
    2: { split; [contradiction | intros [Hp' _]; contradiction]. }
    destruct (Disruption.ConsolidateAfter (NodePool.Disruption (nodePool cn))) as [ca|] eqn:Hca.
    1: destruct (NillableDuration.Duration ca) as [d|] eqn:Hd; simpl.
    + destruct (NodeClaim.GetCondition (NodeClaim cn) v1beta1.Empty) as [cond|]; simpl.
      1: destruct (String.eqb (Condition.Status cond) "True"); simpl; rewrite ?Hd; simpl.
      all: split; [contradiction|].
      all: intros (_ & ca' & Hca' & Hd'); congruence.
    + split; [eauto | discriminate].
    + destruct (NodeClaim.GetCondition (NodeClaim cn) v1beta1.Empty) as [cond|]; simpl.
      1: destruct (String.eqb (Condition.Status cond) "True"); simpl.
      all: split; [contradiction|].
      all: intros (_ & ca' & Hca' & _); congruence.
  - unfold consolidation_ShouldDisrupt, doNotConsolidate. cbn zeta.
    destruct (String.eqb_spec
                (default "" (Annotations cn !! v1alpha5.DoNotConsolidateNodeAnnotationKey)) "true")
      as [Hm|Hm]; simpl.
    { split; [|discriminate]. intros _. left.
      destruct (Annotations cn !! v1alpha5.DoNotConsolidateNodeAnnotationKey); simpl in Hm;
        [by subst | discriminate]. }
    assert (Hno : Annotations cn !! v1alpha5.DoNotConsolidateNodeAnnotationKey <> Some "true").
    { intros Heq. rewrite Heq in Hm. by apply Hm. }
    destruct (String.eqb_spec (Disruption.ConsolidationPolicy (NodePool.Disruption (nodePool cn)))
                              v1beta1.ConsolidationPolicyWhenUnderutilized) as [Hp|Hp]; simpl.
    2: { split; [contradiction | intros [?|[? _]]; contradiction]. }
    destruct (Disruption.ConsolidateAfter (NodePool.Disruption (nodePool cn))) as [ca|] eqn:Hca.
    1: destruct (NillableDuration.Duration ca) as [d|] eqn:Hd; simpl.
    + split; [contradiction|]. intros [?|(_ & ca' & Hca' & Hd')]; [contradiction|congruence].
    + split; [eauto | discriminate].
    + simpl. split; [contradiction|].
      intros [?|(_ & ca' & Hca' & _)]; [contradiction|congruence].
Qed.

(** X22. [getCandidatePrices] stops at the first candidate without its
    offering: the error names that candidate, whatever comes after it. *)
Theorem candidate_prices_fail_at_first_missing
    (before after : list Candidate) (cn : Candidate) :
  Forall (fun c => is_Some (offeringOf c)) before ->
  offeringOf cn = None ->
  getCandidatePrices (before ++ cn :: after) = inr (offeringError cn).
Proof.
  intros Hfound Hnone. unfold getCandidatePrices.
  generalize 0%float as p. induction Hfound as [|c cs [o Ho] _ IH]; intros p; simpl.
  - fold (offeringOf cn). by rewrite Hnone.
  - fold (offeringOf c). rewrite Ho. apply IH.
Qed.

Lemma candidate_prices_fail_at_first_missing_witness :
  getCandidatePrices ([Sample.spotNode] ++ Sample.strayNode :: [Fleet.spotNodeB; Sample.strayNode]) =
    inr (offeringError Sample.strayNode).
Proof.
  apply candidate_prices_fail_at_first_missing; [|reflexivity].
  repeat constructor. exists (Sample.spotOffering 20). reflexivity.
Defined.
